(** * bsu_dates: the academic calendar of [BSUCalendar], verified

    A shallow embedding of [src/__init__.py].  The class computes, for
    every academic year of a configured range, a dictionary from event
    names to dates.  The dates come from yearly recurrence rules
    ([dateutil.rrule]) and from fixed day offsets ([datetime.timedelta]).

    Layout of the development:
    - [PyDate]: the proleptic Gregorian arithmetic of Python's [datetime]
      (ordinals, [date + timedelta], [weekday]);
    - [Rrule]: the fragment of [dateutil.rrule] the class uses (yearly
      rules with [bymonth], [byweekday] with an occurrence number,
      [bymonthday], [dtstart], [count], [until]);
    - the class itself: [_irule], the eight rule methods, [__init__],
      [date_in_term], [dates_by_tag], [get_holiday];
    - the properties. *)

From stdpp Require Import base option list strings gmap.
From Stdlib Require Import ZArith Lia Bool Ascii String.

Local Open Scope Z_scope.

(** ** Exceptions and the error monad *)

(** The Python exceptions the modelled code can raise. *)
Inductive exn : Type :=
  | StopIteration
  | OverflowError
  | KeyError
  | ValueError (msg : string)
  | NameError (name : string)
  | TypeError
  | IndexError
  | AssertionError (msg : string)
  (** not a Python exception: the call leaves the fragment of the
      libraries that this development models *)
  | Unmodelled.

Inductive result (A : Type) : Type :=
  | Ok (a : A)
  | Raise (e : exn).
Arguments Ok {A} a.
Arguments Raise {A} e.

#[global] Instance result_ret : MRet result := λ A a, Ok a.
#[global] Instance result_bind : MBind result := λ A B k m,
  match m with
  | Ok a => k a
  | Raise e => Raise e
  end.

#[global] Instance result_fmap : FMap result := λ A B f m,
  match m with
  | Ok a => Ok (f a)
  | Raise e => Raise e
  end.

Definition is_ok {A} (m : result A) : Prop := ∃ a, m = Ok a.

(** ** Python's [datetime] arithmetic *)

Module PyDate.

Record date : Type := Date { year : Z; month : Z; day : Z }.

#[global] Instance date_eq_dec : EqDecision date.
Proof. solve_decision. Defined.

Definition MINYEAR : Z := 1.
Definition MAXYEAR : Z := 9999.
(** [date(9999, 12, 31).toordinal()] *)
Definition MAXORDINAL : Z := 3652059.

Definition DAYS_IN_MONTH (m : Z) : Z :=
  match m with
  | 1 => 31 | 2 => 28 | 3 => 31 | 4 => 30 | 5 => 31 | 6 => 30
  | 7 => 31 | 8 => 31 | 9 => 30 | 10 => 31 | 11 => 30 | 12 => 31
  | _ => -1
  end.

Definition DAYS_BEFORE_MONTH (m : Z) : Z :=
  match m with
  | 1 => 0 | 2 => 31 | 3 => 59 | 4 => 90 | 5 => 120 | 6 => 151
  | 7 => 181 | 8 => 212 | 9 => 243 | 10 => 273 | 11 => 304 | 12 => 334
  | _ => -1
  end.

Definition is_leap (y : Z) : bool :=
  (y mod 4 =? 0) && (negb (y mod 100 =? 0) || (y mod 400 =? 0)).

Definition days_before_year (y : Z) : Z :=
  let y := y - 1 in y * 365 + y / 4 - y / 100 + y / 400.

Definition days_in_month (y m : Z) : Z :=
  if (m =? 2) && is_leap y then 29 else DAYS_IN_MONTH m.

Definition days_before_month (y m : Z) : Z :=
  DAYS_BEFORE_MONTH m + (if (2 <? m) && is_leap y then 1 else 0).

Definition ymd2ord (y m d : Z) : Z :=
  days_before_year y + days_before_month y m + d.

Definition DI400Y : Z := 146097.
Definition DI100Y : Z := 36524.
Definition DI4Y : Z := 1461.

(** The month and day of the [n]-th day (from 0) of a year. *)
Definition month_day (leapyear : bool) (n : Z) : Z * Z :=
  let month := Z.shiftr (n + 50) 5 in
  let preceding :=
    DAYS_BEFORE_MONTH month + (if (2 <? month) && leapyear then 1 else 0) in
  if n <? preceding then
    let month := month - 1 in
    let preceding :=
      preceding
      - (DAYS_IN_MONTH month + (if (month =? 2) && leapyear then 1 else 0)) in
    (month, n - preceding + 1)
  else (month, n - preceding + 1).

Definition ord2ymd (n : Z) : date :=
  let n := n - 1 in
  let n400 := n / DI400Y in
  let n := n mod DI400Y in
  let year := n400 * 400 + 1 in
  let n100 := n / DI100Y in
  let n := n mod DI100Y in
  let n4 := n / DI4Y in
  let n := n mod DI4Y in
  let n1 := n / 365 in
  let n := n mod 365 in
  let year := year + n100 * 100 + n4 * 4 + n1 in
  if (n1 =? 4) || (n100 =? 4) then Date (year - 1) 12 31
  else
    let leapyear := (n1 =? 3) && (negb (n4 =? 24) || (n100 =? 3)) in
    let '(m, d) := month_day leapyear n in
    Date year m d.

(** The check of the [date] constructor. *)
Definition valid (d : date) : Prop :=
  MINYEAR ≤ year d ≤ MAXYEAR ∧ 1 ≤ month d ≤ 12
  ∧ 1 ≤ day d ≤ days_in_month (year d) (month d).

Definition validb (d : date) : bool :=
  (MINYEAR <=? year d) && (year d <=? MAXYEAR)
  && (1 <=? month d) && (month d <=? 12)
  && (1 <=? day d) && (day d <=? days_in_month (year d) (month d)).

(** [datetime.date(y, m, d)] *)
Definition mk_date (y m d : Z) : result date :=
  if validb (Date y m d) then Ok (Date y m d)
  else Raise (ValueError "date value out of range").

Definition toordinal (d : date) : Z := ymd2ord (year d) (month d) (day d).

Definition fromordinal (n : Z) : result date :=
  if (1 <=? n) && (n <=? MAXORDINAL) then Ok (ord2ymd n)
  else Raise (ValueError "ordinal out of range").

(** Monday is 0, Sunday is 6. *)
Definition weekday (d : date) : Z := (toordinal d + 6) mod 7.

(** [datetime.timedelta]; only whole days occur in the class. *)
Record timedelta : Type := Timedelta { days : Z }.

Definition timedelta_days (n : Z) : timedelta := Timedelta n.
Definition timedelta_weeks (n : Z) : timedelta := Timedelta (7 * n).

(** [d + delta] *)
Definition add (d : date) (delta : timedelta) : result date :=
  let o := toordinal d + days delta in
  if (0 <? o) && (o <=? MAXORDINAL) then Ok (ord2ymd o)
  else Raise OverflowError.

(** [d1 - d2] *)
Definition sub (d1 d2 : date) : timedelta :=
  Timedelta (toordinal d1 - toordinal d2).

(** [d1 < d2] and [d1 <= d2], the comparison of the (y, m, d) triples. *)
Definition ltb (d1 d2 : date) : bool :=
  (year d1 <? year d2)
  || ((year d1 =? year d2)
      && ((month d1 <? month d2)
          || ((month d1 =? month d2) && (day d1 <? day d2)))).

Definition leb (d1 d2 : date) : bool := negb (ltb d2 d1).

End PyDate.
Export PyDate.

(** ** Python values passed as keyword arguments *)

Inductive pyval : Type :=
  | VNone
  | VInt (z : Z)
  | VDate (d : date)
  (** [rrule.MO] .. [rrule.SU], called or not with an occurrence number *)
  | VWeekday (wd : Z) (n : option Z)
  (** any other object (a module, a class, ...) *)
  | VObject (descr : string).

#[global] Instance pyval_eq_dec : EqDecision pyval.
Proof. solve_decision. Defined.

(** ** The fragment of [dateutil.rrule] used by the class *)

Module Rrule.

Definition YEARLY : Z := 0.
Definition MO : Z := 0.
Definition TU : Z := 1.
Definition WE : Z := 2.
Definition TH : Z := 3.
Definition FR : Z := 4.
Definition SA : Z := 5.
Definition SU : Z := 6.

(** The masks, one entry per day of the year (and seven more). *)
Definition M366MASK : list Z :=
  replicate 31 1 ++ replicate 29 2 ++ replicate 31 3 ++ replicate 30 4
  ++ replicate 31 5 ++ replicate 30 6 ++ replicate 31 7 ++ replicate 31 8
  ++ replicate 30 9 ++ replicate 31 10 ++ replicate 30 11
  ++ replicate 31 12 ++ replicate 7 1.
Definition M29 : list Z := seqZ 1 29.
Definition M30 : list Z := seqZ 1 30.
Definition M31 : list Z := seqZ 1 31.
Definition MDAY366MASK : list Z :=
  M31 ++ M29 ++ M31 ++ M30 ++ M31 ++ M30 ++ M31 ++ M31 ++ M30 ++ M31
  ++ M30 ++ M31 ++ take 7 M31.
(** [del M365MASK[59], MDAY365MASK[59]] *)
Definition M365MASK : list Z := take 59 M366MASK ++ drop 60 M366MASK.
Definition MDAY365MASK : list Z :=
  take 59 MDAY366MASK ++ drop 60 MDAY366MASK.
Definition M366RANGE : list Z :=
  [0; 31; 60; 91; 121; 152; 182; 213; 244; 274; 305; 335; 366].
Definition M365RANGE : list Z :=
  [0; 31; 59; 90; 120; 151; 181; 212; 243; 273; 304; 334; 365].
Definition WDAYMASK : list Z :=
  mjoin (replicate 55 [0; 1; 2; 3; 4; 5; 6]).

(** [tbl[i]] for an index within the table. *)
Definition at_ (tbl : list Z) (i : Z) : Z := nth (Z.to_nat i) tbl 0.

(** What [_iterinfo.rebuild] keeps about a year: it depends on the year
    through its length and the weekday of its first day only. *)
Definition yearlen (leap : bool) : Z := if leap then 366 else 365.
Definition mmask (leap : bool) : list Z :=
  if leap then M366MASK else M365MASK.
Definition mdaymask (leap : bool) : list Z :=
  if leap then MDAY366MASK else MDAY365MASK.
Definition mrange (leap : bool) : list Z :=
  if leap then M366RANGE else M365RANGE.
(** [WDAYMASK[wday:]] *)
Definition wdaymask (yearweekday : Z) : list Z :=
  drop (Z.to_nat yearweekday) WDAYMASK.

(** The [by...] parts of a rule after the constructor has normalised
    them; each holds at most one value in the modelled fragment. *)
Record byrules : Type := ByRules {
  bymonth : option Z;
  bymonthday : option Z;
  byweekday : option Z;
  (** (weekday, n) with 1 ≤ |n| ≤ 5 *)
  bynweekday : option (Z * Z)
}.

Record rrule : Type := RRule {
  dtstart : date;
  count : option Z;
  until : option date;
  by_ : byrules
}.

(** The day of the year marked in [nwdaymask], if any. *)
Definition nwday_index (b : byrules) (leap : bool) (yearweekday : Z)
    : option (option Z) :=
  match bynweekday b with
  | None => None
  | Some (wday, n) =>
      let '(first, last) :=
        match bymonth b with
        | Some month => (at_ (mrange leap) (month - 1),
                         at_ (mrange leap) month)
        | None => (0, yearlen leap)
        end in
      let last := last - 1 in
      let i :=
        if n <? 0 then
          let i := last + (n + 1) * 7 in
          i - (at_ (wdaymask yearweekday) i - wday) mod 7
        else
          let i := first + (n - 1) * 7 in
          i + (7 - at_ (wdaymask yearweekday) i + wday) mod 7 in
      Some (if (first <=? i) && (i <=? last) then Some i else None)
  end.

(** The negation of the filter of [_iter]: day [i] stays in the dayset. *)
Definition keep (b : byrules) (leap : bool) (yearweekday : Z) (i : Z)
    : bool :=
  match bymonth b with
  | Some m => at_ (mmask leap) i =? m
  | None => true
  end
  && match byweekday b with
     | Some wd => at_ (wdaymask yearweekday) i =? wd
     | None => true
     end
  && match nwday_index b leap yearweekday with
     | Some marked => bool_decide (marked = Some i)
     | None => true
     end
  && match bymonthday b with
     | Some d => at_ (mdaymask leap) i =? d
     | None => true
     end.

(** The days of year [y] the rule selects, as days of the year. *)
Definition year_dayset (b : byrules) (leap : bool) (yearweekday : Z)
    : list Z :=
  filter (λ i, keep b leap yearweekday i = true) (seqZ 0 (yearlen leap)).

(** [date.fromordinal(ii.yearordinal + i)] for the days left in the
    dayset; the year is at most [MAXYEAR], so the ordinal is in range. *)
Definition year_dates (b : byrules) (y : Z) : list date :=
  let yearordinal := toordinal (Date y 1 1) in
  let yearweekday := weekday (Date y 1 1) in
  (λ i, ord2ymd (yearordinal + i))
    <$> year_dayset b (is_leap y) yearweekday.

(** The output loop of [_iter] over the results of one year.  The second
    component is [None] once the generator has returned, and the
    remaining count otherwise. *)
Fixpoint emit (r : rrule) (cands : list date) (cnt : option Z)
    : list date * option (option Z) :=
  match cands with
  | [] => ([], Some cnt)
  | res :: rest =>
      if match until r with Some u => ltb u res | None => false end
      then ([], None)
      else if leb (dtstart r) res then
        match cnt with
        | Some c =>
            let c := c - 1 in
            if c <? 0 then ([], None)
            else let '(out, st) := emit r rest (Some c) in (res :: out, st)
        | None =>
            let '(out, st) := emit r rest None in (res :: out, st)
        end
      else emit r rest cnt
  end.

(** The [while True] loop of [_iter] for a yearly rule; it ends when the
    year passes [MAXYEAR], which bounds the number of rounds. *)
Fixpoint iter_years (r : rrule) (fuel : nat) (y : Z) (cnt : option Z)
    : list date :=
  match fuel with
  | O => []
  | S fuel =>
      match emit r (year_dates (by_ r) y) cnt with
      | (out, None) => out
      | (out, Some cnt) =>
          let y := y + 1 in
          if MAXYEAR <? y then out else out ++ iter_years r fuel y cnt
      end
  end.

(** [list(rule)]: all the dates the generator yields, in order. *)
Definition iter (r : rrule) : list date :=
  iter_years r (Z.to_nat (MAXYEAR - year (dtstart r) + 1))
    (year (dtstart r)) (count r).

Definition modelled_keywords : list string :=
  ["dtstart"; "until"; "count"; "bymonth"; "bymonthday"; "byweekday"].

Definition opt_date (v : option pyval) : result (option date) :=
  match v with
  | None | Some VNone => Ok None
  | Some (VDate d) => Ok (Some d)
  | Some _ => Raise Unmodelled
  end.

Definition opt_int (v : option pyval) : result (option Z) :=
  match v with
  | None | Some VNone => Ok None
  | Some (VInt z) => Ok (Some z)
  | Some _ => Raise Unmodelled
  end.

(** [rrule.rrule(freq, **kwargs)], the constructor.  A yearly rule with
    a start date, and with the keywords above, is modelled. *)
Definition new (freq : pyval) (kwargs : gmap string pyval) : result rrule :=
  if negb (bool_decide (freq = VInt YEARLY)) then Raise Unmodelled
  else if negb (bool_decide
                  (Forall (λ k, k ∈ modelled_keywords)
                     (elements (dom kwargs))))
  then Raise Unmodelled
  else
    start ← opt_date (kwargs !! "dtstart");
    match start with
    | None => Raise Unmodelled   (* [datetime.now()] *)
    | Some start =>
        cnt ← opt_int (kwargs !! "count");
        unt ← opt_date (kwargs !! "until");
        month ← opt_int (kwargs !! "bymonth");
        mday ← opt_int (kwargs !! "bymonthday");
        '(wday, nwday) ←
           match kwargs !! "byweekday" with
           | None | Some VNone => Ok (None, None)
           | Some (VInt w) => Ok (Some w, None)
           | Some (VWeekday w None) => Ok (Some w, None)
           | Some (VWeekday w (Some n)) =>
               if (n =? 0) || (n <? -5) || (5 <? n) then Raise Unmodelled
               else Ok (None, Some (w, n))
           | Some _ => Raise Unmodelled
           end;
        (* the defaults taken from [dtstart] *)
        let '(month, mday) :=
          match mday, wday, nwday with
          | None, None, None =>
              (match month with
               | None => Some (PyDate.month start)
               | Some m => Some m
               end, Some (day start))
          | _, _, _ => (month, mday)
          end in
        if match month with
           | Some m => negb ((1 <=? m) && (m <=? 12))
           | None => false
           end
           || match mday with Some d => d <=? 0 | None => false end
           || match wday with
              | Some w => negb ((0 <=? w) && (w <=? 6))
              | None => false
              end
           || match nwday with
              | Some (w, _) => negb ((0 <=? w) && (w <=? 6))
              | None => false
              end
        then Raise Unmodelled
        else Ok (RRule start cnt unt (ByRules month mday wday nwday))
    end.

End Rrule.

(** ** Strings *)

Definition lower_ascii (c : ascii) : ascii :=
  let n := N_of_ascii c in
  if ((65 <=? n) && (n <=? 90))%N then ascii_of_N (n + 32) else c.

Fixpoint string_map (f : ascii → ascii) (s : string) : string :=
  match s with
  | EmptyString => EmptyString
  | String c s => String (f c) (string_map f s)
  end.

(** [s.lower()], for ASCII strings *)
Definition lower (s : string) : string := string_map lower_ascii s.

(** [s.replace(a, b)] for one-character [a] and [b] *)
Definition replace (a b : ascii) (s : string) : string :=
  string_map (λ c, if Ascii.eqb c a then b else c) s.

(** ** The class [BSUCalendar] *)

Record BSUCalendar : Type := {
  semesters : list string;
  sem_code_to_int : gmap string Z;
  int_to_sem_code : gmap Z string;
  holidays : list string;
  tags : gmap string (list string);
  min_date : date;
  max_date : date;
  years : list Z;
  n_yrs : Z;
  dates : gmap Z (gmap string date)
}.

(** The second argument of [_add_days]: an [int], a [timedelta], or
    anything else. *)
Inductive days_arg : Type :=
  | DInt (n : Z)
  | DDelta (t : timedelta)
  | DOther.

Definition _add_days (d : date) (days : days_arg) : result date :=
  match days with
  | DInt n => add d (timedelta_days n)
  | DDelta t => add d t
  | DOther =>
      Raise (ValueError "days argument must be type int or datetime.timedelta")
  end.

Definition has_key (k : string) (kwargs : gmap string pyval) : bool :=
  bool_decide (is_Some (kwargs !! k)).

(** [_irule] applied to keyword arguments; the result is the sequence the returned iterator
    yields.  (The debug log line is left out.) *)
Definition _irule (kwargs : gmap string pyval) : result (list date) :=
  if negb (has_key "freq" kwargs)
  then Raise (AssertionError "Must have freq argument")
  else
    let kwargs := filter (λ kv : string * pyval, kv.2 ≠ VNone) kwargs in
    match kwargs !! "freq" with
    | None => Raise KeyError
    | Some freq =>
        let kwargs := delete "freq" kwargs in
        if negb (has_key "until" kwargs || has_key "count" kwargs) then
          if has_key "until" kwargs && has_key "count" kwargs
          then Raise (ValueError "Specify either count or until, not both")
          else Raise (ValueError "Must specify either count or until.")
        else Rrule.iter <$> Rrule.new freq kwargs
    end.

(** *** The rule methods

    Each builds the keyword dictionary of its rule and hands it to
    [_irule]; the three parameters default to [None]. *)

Definition rule_kwargs (by_part : list (string * pyval))
    (dtstart until count : pyval) : gmap string pyval :=
  list_to_map
    ([("freq", VInt Rrule.YEARLY)] ++ by_part
     ++ [("dtstart", dtstart); ("until", until); ("count", count)]).

(** [rrule.TH(4)] *)
Definition _thanksgiving (dtstart until count : pyval) : result (list date) :=
  _irule (rule_kwargs [("bymonth", VInt 11);
                       ("byweekday", VWeekday Rrule.TH (Some 4))]
            dtstart until count).

(** [rrule.MO(1)] *)
Definition _labor_day (dtstart until count : pyval) : result (list date) :=
  _irule (rule_kwargs [("bymonth", VInt 9);
                       ("byweekday", VWeekday Rrule.MO (Some 1))]
            dtstart until count).

(** [rrule.MO(3)] *)
Definition _mlk_day (dtstart until count : pyval) : result (list date) :=
  _irule (rule_kwargs [("bymonth", VInt 1);
                       ("byweekday", VWeekday Rrule.MO (Some 3))]
            dtstart until count).

(** [rrule.MO(-1)] *)
Definition _memorial_day (dtstart until count : pyval) : result (list date) :=
  _irule (rule_kwargs [("bymonth", VInt 3);
                       ("byweekday", VWeekday Rrule.MO (Some (-1)))]
            dtstart until count).

Definition _independence_day (dtstart until count : pyval)
    : result (list date) :=
  _irule (rule_kwargs [("bymonth", VInt 7); ("bymonthday", VInt 4)]
            dtstart until count).

(** [rrule.MO(-2)] *)
Definition _fall_start (dtstart until count : pyval) : result (list date) :=
  _irule (rule_kwargs [("bymonth", VInt 8);
                       ("byweekday", VWeekday Rrule.MO (Some (-2)))]
            dtstart until count).

(** [rrule.MO(-2)] *)
Definition _fall_break_start (dtstart until count : pyval)
    : result (list date) :=
  _irule (rule_kwargs [("bymonth", VInt 10);
                       ("byweekday", VWeekday Rrule.MO (Some (-2)))]
            dtstart until count).

(** [rrule.MO(3)] *)
Definition _spring_withdraw_deadline (dtstart until count : pyval)
    : result (list date) :=
  _irule (rule_kwargs [("bymonth", VInt 3);
                       ("byweekday", VWeekday Rrule.MO (Some 3))]
            dtstart until count).

(** *** The constructor *)

(** The generators [__init__] holds while it fills the years: what each
    has still to yield. *)
Record gens : Type := Gens {
  g_thanksgiving : list date;
  g_labor_day : list date;
  g_mlk_day : list date;
  g_memorial_day : list date;
  g_independence_day : list date;
  g_fall_start : list date;
  g_fall_break_start : list date;
  g_spring_withdraw : list date
}.

(** [next(g)] *)
Definition next (g : list date) : result (date * list date) :=
  match g with
  | [] => Raise StopIteration
  | d :: g => Ok (d, g)
  end.

Definition term_length : timedelta := timedelta_days 116.
Definition sum_term_length : timedelta := timedelta_days 68.
Definition xmas_break : timedelta := timedelta_days 24.

(** One round of the loop [for yr in self.years]: the dictionary of the
    year and the generators after it. *)
Definition init_year (yr : Z) (g : gens)
    : result (gmap string date * gens) :=
  (* fall term *)
  '(f_start, fall_start) ← next (g_fall_start g);
  f_end ← add f_start term_length;
  '(f_break_start, fall_break_start) ← next (g_fall_break_start g);
  f_break_end ← _add_days f_break_start (DInt 1);
  f_withdraw_end ← _add_days f_break_end (DInt 1);
  '(thanks, thanksgiving) ← next (g_thanksgiving g);
  f_thank_break_start ← _add_days thanks (DInt (-1));
  f_thank_break_end ← _add_days f_thank_break_start (DInt 2);
  let yr_dates : gmap string date := ∅ in
  let yr_dates := <["Fall Term Start" := f_start]> yr_dates in
  let yr_dates := <["Fall Classes Start" := f_start]> yr_dates in
  let yr_dates := <["Fall Late Registration Start" := f_start]> yr_dates in
  v ← _add_days f_start (DInt 4);
  let yr_dates := <["Fall Late Registration End" := v]> yr_dates in
  let yr_dates := <["Fall Break Start" := f_break_start]> yr_dates in
  let yr_dates := <["Fall Break End" := f_break_end]> yr_dates in
  let yr_dates := <["Fall Withdraw Deadline" := f_withdraw_end]> yr_dates in
  let yr_dates :=
    <["Thanksgiving Break Start" := f_thank_break_start]> yr_dates in
  let yr_dates :=
    <["Thanksgiving Break End" := f_thank_break_end]> yr_dates in
  '(v, labor_day) ← next (g_labor_day g);
  let yr_dates := <["Labor Day" := v]> yr_dates in
  v ← _add_days f_end (DInt (-4));
  let yr_dates := <["Fall Classes End" := v]> yr_dates in
  v ← _add_days f_end (DInt (-3));
  let yr_dates := <["Fall Finals Start" := v]> yr_dates in
  let yr_dates := <["Fall Finals End" := f_end]> yr_dates in
  let yr_dates := <["Fall Term End" := f_end]> yr_dates in
  v ← _add_days f_end (DInt 3);
  let yr_dates := <["Fall Final Grades Due" := v]> yr_dates in
  (* spring term *)
  sp_start ← _add_days f_end (DDelta xmas_break);
  sp_end ← _add_days sp_start (DDelta term_length);
  sp_break_start ←
    (if yr =? 2013 then add sp_start (timedelta_weeks 9)
     else add sp_start (timedelta_weeks 8));
  let yr_dates := <["Spring Term Start" := sp_start]> yr_dates in
  let yr_dates := <["Spring Classes Start" := sp_start]> yr_dates in
  let yr_dates := <["Spring Break Start" := sp_break_start]> yr_dates in
  v ← _add_days sp_break_start (DInt 4);
  let yr_dates := <["Spring Break End" := v]> yr_dates in
  '(v, spring_withdraw) ← next (g_spring_withdraw g);
  let yr_dates := <["Spring Withdraw Deadline" := v]> yr_dates in
  v ← _add_days sp_end (DInt (-4));
  let yr_dates := <["Spring Classes End" := v]> yr_dates in
  v ← _add_days sp_end (DInt (-3));
  let yr_dates := <["Spring Finals Start" := v]> yr_dates in
  let yr_dates := <["Spring Finals End" := sp_end]> yr_dates in
  let yr_dates := <["Spring Term End" := sp_end]> yr_dates in
  v ← _add_days sp_end (DInt 3);
  let yr_dates := <["Spring Final Grades Due" := v]> yr_dates in
  (* summer term *)
  sm_start ← _add_days sp_end (DInt 10);
  sm_end ← _add_days sp_start (DDelta sum_term_length);
  let yr_dates := <["Summer Term Start" := sm_start]> yr_dates in
  '(v, independence_day) ← next (g_independence_day g);
  let yr_dates := <["Independenc Day" := v]> yr_dates in
  let yr_dates := <["Summer Term End" := sm_end]> yr_dates in
  v ← _add_days sm_end (DInt 3);
  let yr_dates := <["Summer Final Grades Due" := v]> yr_dates in
  Ok (yr_dates,
      {| g_thanksgiving := thanksgiving;
         g_labor_day := labor_day;
         g_mlk_day := g_mlk_day g;
         g_memorial_day := g_memorial_day g;
         g_independence_day := independence_day;
         g_fall_start := fall_start;
         g_fall_break_start := fall_break_start;
         g_spring_withdraw := spring_withdraw |}).

(** The loop itself; [self.dates[yr] = yr_dates] ends each round. *)
Fixpoint init_years (yrs : list Z) (g : gens)
    (dates : gmap Z (gmap string date))
    : result (gmap Z (gmap string date)) :=
  match yrs with
  | [] => Ok dates
  | yr :: yrs =>
      '(yr_dates, g) ← init_year yr g;
      init_years yrs g (<[yr := yr_dates]> dates)
  end.

Definition the_holidays : list string :=
  ["Thanksgiving Break"; "Labor Day"; "MLK Day"; "Memorial Day";
   "Independence Day"].

Definition the_tags : gmap string (list string) :=
  list_to_map
    [("Registration",
      ["Late Registration Start"; "Late Registration End";
       "Withdraw Deadline"]);
     ("Instruction",
      ["Classes Start"; "Classes End"; "Break Start"; "Break End";
       "Finals Start"; "Finals End"; "Final Grades Due"]);
     ("Holidays", the_holidays)].

(** [BSUCalendar(start_year, end_year)].  [now_year] stands for
    [datetime.datetime.now().year], read when [end_year] is [None].  The
    logger (and with it the warning for a start before 2012) is left
    out: it changes no date. *)
Definition __init__ (now_year : Z) (start_year : Z) (end_year : option Z)
    : result BSUCalendar :=
  min_date ← mk_date start_year 8 1;
  let end_year := default (now_year + 2) end_year in
  max_date ← mk_date end_year 8 1;
  (* list(range(self.min_date.year, self.max_date.year)) *)
  let years := seqZ (year min_date) (year max_date - year min_date) in
  let n_yrs := Z.of_nat (List.length years) in
  let dtstart := VDate min_date in
  let count := VInt n_yrs in
  thanksgiving ← _thanksgiving dtstart VNone count;
  labor_day ← _labor_day dtstart VNone count;
  mlk_day ← _mlk_day dtstart VNone count;
  memorial_day ← _memorial_day dtstart VNone count;
  independence_day ← _independence_day dtstart VNone count;
  fall_start ← _fall_start dtstart VNone count;
  fall_break_start ← _fall_break_start dtstart VNone count;
  spring_withdraw ← _spring_withdraw_deadline dtstart VNone count;
  dates ← init_years years
    {| g_thanksgiving := thanksgiving;
       g_labor_day := labor_day;
       g_mlk_day := mlk_day;
       g_memorial_day := memorial_day;
       g_independence_day := independence_day;
       g_fall_start := fall_start;
       g_fall_break_start := fall_break_start;
       g_spring_withdraw := spring_withdraw |} ∅;
  Ok {| semesters := ["Fall"; "Spring"; "Summer"];
        sem_code_to_int :=
          list_to_map [("Fall", 10); ("Spring", 20); ("Summer", 30)];
        int_to_sem_code :=
          list_to_map [(10, "Fall"); (20, "Spring"); (30, "Summer")];
        holidays := the_holidays;
        tags := the_tags;
        min_date := min_date;
        max_date := max_date;
        years := years;
        n_yrs := n_yrs;
        dates := dates |}.

(** *** [date_in_term] *)

(** [divmod] with the quotient rounded to the nearest integer, ties to
    the even one, for a positive divisor (what [int.__round__] uses). *)
Definition divmod_near (a b : Z) : Z * Z :=
  let q := a / b in
  let r := a mod b in
  if (b <? 2 * r) || ((2 * r =? b) && Z.odd q) then (q + 1, r - b)
  else (q, r).

(** [round(t, -2)] for an [int]: [t] minus the remainder of the division
    by [10**2] rounded to nearest. *)
Definition round_hundreds (t : Z) : Z := t - (divmod_near t 100).2.

(** [int(a / 100)] for a multiple [a] of 100.  The true division yields
    the double nearest to the quotient (ties to the even significand),
    which [int] then reads back exactly; it overflows from [2**1024]. *)
Definition int_of_true_div_100 (a : Z) : result Z :=
  let q := a / 100 in
  let m := Z.abs q in
  let nbits := Z.log2 m + 1 in
  if nbits <=? 53 then Ok q
  else
    let e := nbits - 53 in
    let hi := Z.shiftr m e in
    let lo := m mod 2 ^ e in
    let half := 2 ^ (e - 1) in
    let hi := if (half <? lo) || ((lo =? half) && Z.odd hi)
              then hi + 1 else hi in
    let v := hi * 2 ^ e in
    if 2 ^ 1024 <=? v then Raise OverflowError else Ok (Z.sgn q * v).

(** [int(round(term, -2) / 100)] *)
Definition year_of_term (term : Z) : result Z :=
  int_of_true_div_100 (round_hundreds term).

(** [d[k]] *)
Definition getitem `{Lookup K V M} (d : M) (k : K) : result V :=
  match d !! k with
  | Some v => Ok v
  | None => Raise KeyError
  end.

(** [date_in_term(term, field)] for an [int] term.  (A [str] term is
    first converted with [int]; that branch is not modelled.) *)
Definition date_in_term (self : BSUCalendar) (term : Z) (field : string)
    : result date :=
  yr ← year_of_term term;
  yr_dates ← getitem (dates self) yr;
  getitem yr_dates field.

(** *** [get_holiday] *)

(** What an attribute of the instance does when it is called with the
    keywords [dtstart] and [count]. *)
Inductive attribute : Type :=
  (** one of the rule methods *)
  | ARule (gen : pyval → pyval → pyval → result (list date))
  (** [_irule] *)
  | AIrule
  (** a method with other parameters, or an object that is not callable *)
  | AOther.

(** The attributes every object has (the names [dir(object())] lists). *)
Definition object_attributes : list string :=
  ["__class__"; "__delattr__"; "__dir__"; "__doc__"; "__eq__";
   "__format__"; "__ge__"; "__getattribute__"; "__getstate__"; "__gt__";
   "__hash__"; "__init__"; "__init_subclass__"; "__le__"; "__lt__";
   "__ne__"; "__new__"; "__reduce__"; "__reduce_ex__"; "__repr__";
   "__setattr__"; "__sizeof__"; "__str__"; "__subclasshook__";
   "__dict__"; "__module__"; "__weakref__"].

(** The other attributes an instance has: those [__init__] sets and the
    methods of the class. *)
Definition instance_attributes : list string :=
  ["semesters"; "sem_code_to_int"; "int_to_sem_code"; "holidays"; "tags";
   "min_date"; "max_date"; "years"; "n_yrs"; "dates"; "_logger";
   "date_in_term"; "dates_by_tag"; "get_holiday"; "_set_logger";
   "_add_days"].

(** [getattr(self, name)], [None] when [hasattr(self, name)] is false. *)
Definition getattr (name : string) : option attribute :=
  if bool_decide (name = "_thanksgiving") then Some (ARule _thanksgiving)
  else if bool_decide (name = "_labor_day") then Some (ARule _labor_day)
  else if bool_decide (name = "_mlk_day") then Some (ARule _mlk_day)
  else if bool_decide (name = "_memorial_day")
  then Some (ARule _memorial_day)
  else if bool_decide (name = "_independence_day")
  then Some (ARule _independence_day)
  else if bool_decide (name = "_fall_start") then Some (ARule _fall_start)
  else if bool_decide (name = "_fall_break_start")
  then Some (ARule _fall_break_start)
  else if bool_decide (name = "_spring_withdraw_deadline")
  then Some (ARule _spring_withdraw_deadline)
  else if bool_decide (name = "_irule") then Some AIrule
  else if bool_decide (name ∈ instance_attributes ++ object_attributes)
  then Some AOther
  else None.

(** [attr(dtstart=dtstart, count=count)] *)
Definition call_attribute (a : attribute) (dtstart count : pyval)
    : result (list date) :=
  match a with
  | ARule gen => gen dtstart VNone count
  | AIrule => _irule (list_to_map [("dtstart", dtstart); ("count", count)])
  | AOther => Raise TypeError
  end.

Definition shifted_holidays : list string :=
  ["MLK Day"; "Memorial Day"; "Independence Day"].

Definition get_holiday (self : BSUCalendar) (holiday : string) (ac_year : Z)
    : result date :=
  let attr_name := "_" +:+ replace " " "_" (lower holiday) in
  match getattr attr_name with
  | Some gen_holiday =>
      let ac_year :=
        if bool_decide (holiday ∈ shifted_holidays) then ac_year + 1
        else ac_year in
      start ← mk_date ac_year 1 1;
      l ← call_attribute gen_holiday (VDate start) (VInt 1);
      match l with
      | d :: _ => Ok d
      | [] => Raise IndexError
      end
  | None => Raise (ValueError ("Holiday " +:+ holiday +:+ " not recognized"))
  end.

(** *** [dates_by_tag] *)

(** The names bound in the module: its imports and the class. *)
Definition module_globals : gmap string pyval :=
  list_to_map
    [("dateutil", VObject "module"); ("holidays", VObject "module");
     ("logging", VObject "module"); ("datetime", VObject "module");
     ("pd", VObject "module"); ("rrule", VObject "module");
     ("BSUCalendar", VObject "class")].

(** Reading a name that is no local variable: the module's globals (no
    builtin is called [term]). *)
Definition load_global (globals : gmap string pyval) (name : string)
    : result pyval :=
  match globals !! name with
  | Some v => Ok v
  | None => Raise (NameError name)
  end.

(** Lines 162-183, after [yr] and [sem] are computed.  The result is
    [None] where the function falls off its end. *)
Definition dates_by_tag_body (self : BSUCalendar) (tag : string)
    : result (option (gmap string date)) :=
  match tags self !! tag with
  | Some fields =>
      if bool_decide (tag = "Holidays") then
        match holidays self with
        | [] => Ok (Some ∅)
        (* [self.get_holiday(...)] lacks its [ac_year] argument *)
        | hol :: _ => Raise TypeError
        end
      else
        match semesters self, fields with
        | _ :: _, _ :: _ =>
            (* [self.dates] has the years for keys, not strings *)
            Raise KeyError
        | _, _ => Ok (Some ∅)
        end
  | None =>
      (* the [ValueError] is built and dropped *)
      Ok None
  end.

(** [dates_by_tag(tag)]; [globals] is the namespace of the module when
    the method runs.  Its first statement reads the name [term]. *)
Definition dates_by_tag (globals : gmap string pyval) (self : BSUCalendar)
    (tag : string) : result (option (gmap string date)) :=
  term ← load_global globals "term";
  match term with
  | VInt term =>
      yr ← year_of_term term;
      (* [self.int_to_sem_code(...)]: a [dict] is not callable *)
      sem ← (Raise TypeError : result string);
      dates_by_tag_body self tag
  | _ => Raise TypeError
  end.

(** ** Definitions for the statements *)

(** The number of days of year [y]. *)
Definition days_in_year (y : Z) : Z := 365 + (if is_leap y then 1 else 0).

(** The date of day [i] (from 0) of year [y]. *)
Definition day_of_year (y i : Z) : date :=
  let '(m, d) := month_day (is_leap y) i in Date y m d.

(** The check, over the fourteen shapes a year can have, that a rule
    selects one day a year, in month [M], on a day of the month between
    [lo] and [hi], and on weekday [wd] when one is given. *)
Definition regularb (b : Rrule.byrules) (M lo hi : Z) (wd : option Z) : bool :=
  forallb (λ lp,
    forallb (λ yw,
      match Rrule.year_dayset b lp yw with
      | [i] =>
          let '(m, d) := month_day lp i in
          (0 <=? i) && (i <? Rrule.yearlen lp)
          && (m =? M) && (lo <=? d) && (d <=? hi)
          && match wd with
             | Some wd => (yw + i) mod 7 =? wd
             | None => true
             end
      | _ => false
      end) (seqZ 0 7)) [true; false].

Definition by_nweekday (m wd n : Z) : Rrule.byrules :=
  Rrule.ByRules (Some m) None None (Some (wd, n)).
Definition by_monthday (m d : Z) : Rrule.byrules :=
  Rrule.ByRules (Some m) (Some d) None None.

Definition thanksgiving_by := by_nweekday 11 Rrule.TH 4.
Definition labor_day_by := by_nweekday 9 Rrule.MO 1.
Definition mlk_day_by := by_nweekday 1 Rrule.MO 3.
Definition memorial_day_by := by_nweekday 3 Rrule.MO (-1).
Definition independence_day_by := by_monthday 7 4.
Definition fall_start_by := by_nweekday 8 Rrule.MO (-2).
Definition fall_break_start_by := by_nweekday 10 Rrule.MO (-2).
Definition spring_withdraw_by := by_nweekday 3 Rrule.MO 3.

(** The date a rule selects in year [y]. *)
Definition occ (b : Rrule.byrules) (y : Z) : date :=
  default (Date y 1 1) (head (Rrule.year_dates b y)).

(** The rule a method builds from a start date and a count. *)
Definition rule_of (b : Rrule.byrules) (ds : date) (c : Z) : Rrule.rrule :=
  Rrule.RRule ds (Some c) None b.

(** [d] moved by [k] days, when the result is in range. *)
Definition shift (d : date) (k : Z) : date := ord2ymd (toordinal d + k).

(** The dictionary [init_year] builds from the six dates it takes from
    the generators. *)
Definition year_entry (yr : Z) (fs fbs th ld sw ind : date)
    : gmap string date :=
  let sp_break := if yr =? 2013 then 203 else 196 in
  <["Summer Final Grades Due" := shift fs 211]> (
  <["Summer Term End" := shift fs 208]> (
  <["Independenc Day" := ind]> (
  <["Summer Term Start" := shift fs 266]> (
  <["Spring Final Grades Due" := shift fs 259]> (
  <["Spring Term End" := shift fs 256]> (
  <["Spring Finals End" := shift fs 256]> (
  <["Spring Finals Start" := shift fs 253]> (
  <["Spring Classes End" := shift fs 252]> (
  <["Spring Withdraw Deadline" := sw]> (
  <["Spring Break End" := shift fs (sp_break + 4)]> (
  <["Spring Break Start" := shift fs sp_break]> (
  <["Spring Classes Start" := shift fs 140]> (
  <["Spring Term Start" := shift fs 140]> (
  <["Fall Final Grades Due" := shift fs 119]> (
  <["Fall Term End" := shift fs 116]> (
  <["Fall Finals End" := shift fs 116]> (
  <["Fall Finals Start" := shift fs 113]> (
  <["Fall Classes End" := shift fs 112]> (
  <["Labor Day" := ld]> (
  <["Thanksgiving Break End" := shift th 1]> (
  <["Thanksgiving Break Start" := shift th (-1)]> (
  <["Fall Withdraw Deadline" := shift fbs 2]> (
  <["Fall Break End" := shift fbs 1]> (
  <["Fall Break Start" := fbs]> (
  <["Fall Late Registration End" := shift fs 4]> (
  <["Fall Late Registration Start" := fs]> (
  <["Fall Classes Start" := fs]> (
  <["Fall Term Start" := fs]> ∅)))))))))))))))))))))))))))).

(** The dictionary of academic year [yr]. *)
Definition entry (yr : Z) : gmap string date :=
  year_entry yr (occ fall_start_by yr) (occ fall_break_start_by yr)
    (occ thanksgiving_by yr) (occ labor_day_by yr)
    (occ spring_withdraw_by (yr + 1)) (occ independence_day_by (yr + 1)).

(** The generators when [n] years from [y] on are left to fill. *)
Definition gens_from (y : Z) (n : Z) (mlk mem : list date) : gens :=
  {| g_thanksgiving := occ thanksgiving_by <$> seqZ y n;
     g_labor_day := occ labor_day_by <$> seqZ y n;
     g_mlk_day := mlk;
     g_memorial_day := mem;
     g_independence_day := occ independence_day_by <$> seqZ (y + 1) n;
     g_fall_start := occ fall_start_by <$> seqZ y n;
     g_fall_break_start := occ fall_break_start_by <$> seqZ y n;
     g_spring_withdraw := occ spring_withdraw_by <$> seqZ (y + 1) n |}.

(** [self.dates] after the years [yrs] are stored on top of [m]. *)
Definition store_years (m : gmap Z (gmap string date)) (yrs : list Z)
    : gmap Z (gmap string date) :=
  foldl (λ m yr, <[yr := entry yr]> m) m yrs.

(** The shape of a calendar built for the years from [sy] up to [ey]. *)
Definition calendar_of (sy ey : Z) (cal : BSUCalendar) : Prop :=
  years cal = seqZ sy (ey - sy)
  ∧ n_yrs cal = Z.max 0 (ey - sy)
  ∧ min_date cal = Date sy 8 1
  ∧ max_date cal = Date ey 8 1
  ∧ holidays cal = the_holidays
  ∧ tags cal = the_tags
  ∧ semesters cal = ["Fall"; "Spring"; "Summer"]
  ∧ dates cal = store_years ∅ (seqZ sy (ey - sy)).

(** The semester codes of a term code: Fall, Spring, Summer. *)
Definition semester_code (s : Z) : Prop := s = 10 ∨ s = 20 ∨ s = 30.

(** The rule methods with the month of their rule. *)
Definition rule_methods
    : list ((pyval → pyval → pyval → result (list date)) * Z) :=
  [(_thanksgiving, 11); (_labor_day, 9); (_mlk_day, 1); (_memorial_day, 3);
   (_independence_day, 7); (_fall_start, 8); (_fall_break_start, 10);
   (_spring_withdraw_deadline, 3)].

(** A keyword is left out of the call or passed as [None]. *)
Definition not_given (k : string) (kwargs : gmap string pyval) : Prop :=
  kwargs !! k = None ∨ kwargs !! k = Some VNone.

(** The keys of the dictionary of a year, in the order [__init__]
    assigns them. *)
Definition year_fields : list string :=
  ["Fall Term Start"; "Fall Classes Start"; "Fall Late Registration Start";
   "Fall Late Registration End"; "Fall Break Start"; "Fall Break End";
   "Fall Withdraw Deadline"; "Thanksgiving Break Start";
   "Thanksgiving Break End"; "Labor Day"; "Fall Classes End";
   "Fall Finals Start"; "Fall Finals End"; "Fall Term End";
   "Fall Final Grades Due"; "Spring Term Start"; "Spring Classes Start";
   "Spring Break Start"; "Spring Break End"; "Spring Withdraw Deadline";
   "Spring Classes End"; "Spring Finals Start"; "Spring Finals End";
   "Spring Term End"; "Spring Final Grades Due"; "Summer Term Start";
   "Independenc Day"; "Summer Term End"; "Summer Final Grades Due"].

(** The holiday names [get_holiday] resolves to a rule method, with the
    method, the descriptor of its rule and whether the year is shifted. *)
Definition holiday_rules
    : list (string * (pyval → pyval → pyval → result (list date))
            * Rrule.byrules * bool) :=
  [("Thanksgiving", _thanksgiving, thanksgiving_by, false);
   ("Labor Day", _labor_day, labor_day_by, false);
   ("MLK Day", _mlk_day, mlk_day_by, true);
   ("Memorial Day", _memorial_day, memorial_day_by, true);
   ("Independence Day", _independence_day, independence_day_by, true)].

(** * Properties *)

(** ** The Gregorian calendar: ordinals and dates *)

Lemma forallb_seqZ (P : Z → bool) (lo n : Z) :
  forallb P (seqZ lo n) = true → ∀ i, lo ≤ i < lo + n → P i = true.
Proof.
  intros H i Hi. rewrite forallb_forall in H. apply H.
  apply list_elem_of_In. apply elem_of_seqZ. lia.
Qed.

Lemma month_day_spec (lp : bool) (n : Z) :
  0 ≤ n < 365 + (if lp then 1 else 0) →
  let '(m, d) := month_day lp n in
  1 ≤ m ≤ 12 ∧ 1 ≤ d ∧ d ≤ DAYS_IN_MONTH m + (if (m =? 2) && lp then 1 else 0)
  ∧ DAYS_BEFORE_MONTH m + (if (2 <? m) && lp then 1 else 0) + d = n + 1.
Proof.
  intros Hn.
  pose (chk := λ (lp : bool) (n : Z),
    let '(m, d) := month_day lp n in
    (1 <=? m) && (m <=? 12) && (1 <=? d)
    && (d <=? DAYS_IN_MONTH m + (if (m =? 2) && lp then 1 else 0))
    && (DAYS_BEFORE_MONTH m + (if (2 <? m) && lp then 1 else 0) + d =? n + 1)).
  assert (chk lp n = true) as Hc.
  { destruct lp.
    - apply (forallb_seqZ (chk true) 0 366); [vm_compute; reflexivity | lia].
    - apply (forallb_seqZ (chk false) 0 365); [vm_compute; reflexivity | lia]. }
  unfold chk in Hc. destruct (month_day lp n) as [m d].
  repeat (apply andb_prop in Hc as [Hc ?]). lia.
Qed.

Lemma is_leap_decomp (a b c d : Z) :
  0 ≤ b ≤ 3 → 0 ≤ c ≤ 24 → 0 ≤ d ≤ 3 →
  is_leap (400 * a + 100 * b + 4 * c + d + 1)
  = (d =? 3) && (negb (c =? 24) || (b =? 3)).
Proof.
  intros Hb Hc Hd. unfold is_leap.
  set (y := 400 * a + 100 * b + 4 * c + d + 1).
  assert (y mod 4 = (d + 1) mod 4) as ->.
  { unfold y. replace (400 * a + 100 * b + 4 * c + d + 1)
      with ((d + 1) + (100 * a + 25 * b + c) * 4) by lia.
    apply Z.mod_add. lia. }
  assert (y mod 100 = (4 * c + d + 1) mod 100) as ->.
  { unfold y. replace (400 * a + 100 * b + 4 * c + d + 1)
      with ((4 * c + d + 1) + (4 * a + b) * 100) by lia.
    apply Z.mod_add. lia. }
  assert (y mod 400 = (100 * b + 4 * c + d + 1) mod 400) as ->.
  { unfold y. replace (400 * a + 100 * b + 4 * c + d + 1)
      with ((100 * b + 4 * c + d + 1) + a * 400) by lia.
    apply Z.mod_add. lia. }
  destruct (Z.eqb_spec d 3), (Z.eqb_spec c 24), (Z.eqb_spec b 3);
    subst; simpl;
    repeat match goal with
    | |- context [?x mod ?n =? 0] =>
        destruct (Z.eqb_spec (x mod n) 0)
    end; simpl; try reflexivity;
    exfalso; Z.div_mod_to_equations; lia.
Qed.

Lemma year_decomp (y : Z) :
  ∃ a b c d, y = 400 * a + 100 * b + 4 * c + d + 1
    ∧ 0 ≤ b ≤ 3 ∧ 0 ≤ c ≤ 24 ∧ 0 ≤ d ≤ 3.
Proof.
  exists ((y - 1) / 400), ((y - 1) mod 400 / 100),
    ((y - 1) mod 400 mod 100 / 4), ((y - 1) mod 400 mod 100 mod 4).
  Z.div_mod_to_equations. lia.
Qed.

Lemma days_before_year_decomp (a b c d : Z) :
  0 ≤ b ≤ 3 → 0 ≤ c ≤ 24 → 0 ≤ d ≤ 3 →
  days_before_year (400 * a + 100 * b + 4 * c + d + 1)
  = DI400Y * a + DI100Y * b + DI4Y * c + 365 * d.
Proof.
  intros. unfold days_before_year, DI400Y, DI100Y, DI4Y.
  Z.div_mod_to_equations. lia.
Qed.

Lemma div_mod_unique_pos (n q r k : Z) :
  0 < k → n = k * q + r → 0 ≤ r < k → n / k = q ∧ n mod k = r.
Proof.
  intros Hk -> Hr. split.
  - symmetry. apply (Z.div_unique _ _ q r); [lia | reflexivity].
  - symmetry. apply (Z.mod_unique _ _ q r); [lia | reflexivity].
Qed.

Lemma ord2ymd_in_year (y i : Z) :
  0 ≤ i < days_in_year y →
  ord2ymd (days_before_year y + 1 + i)
  = let '(m, d) := month_day (is_leap y) i in Date y m d.
Proof.
  intros Hi.
  destruct (year_decomp y) as (a & b & c & d & -> & Hb & Hc & Hd).
  unfold days_in_year in Hi.
  rewrite is_leap_decomp in * by assumption.
  rewrite days_before_year_decomp by assumption.
  set (lp := (d =? 3) && (negb (c =? 24) || (b =? 3))) in *.
  assert (i = 365 → d = 3 ∧ (c ≠ 24 ∨ b = 3)) as Hlp.
  { intros ->. unfold lp in Hi.
    destruct (Z.eqb_spec d 3), (Z.eqb_spec c 24), (Z.eqb_spec b 3);
      simpl in Hi; lia. }
  assert (i ≤ 365) as Hi' by (destruct lp; lia).
  unfold ord2ymd. cbv zeta.
  replace (DI400Y * a + DI100Y * b + DI4Y * c + 365 * d + 1 + i - 1)
    with (DI400Y * a + (DI100Y * b + DI4Y * c + 365 * d + i)) by lia.
  unfold DI400Y, DI100Y, DI4Y in *.
  destruct (div_mod_unique_pos
    (146097 * a + (36524 * b + 1461 * c + 365 * d + i)) a
    (36524 * b + 1461 * c + 365 * d + i) 146097) as [-> ->]; [lia | lia | |].
  { destruct (Z.eq_dec i 365) as [Hie|]; [specialize (Hlp Hie)|]; lia. }
  destruct (Z.eq_dec i 365) as [Hie|Hne].
  - (* the last day of a leap year *)
    destruct (Hlp Hie) as [-> Hcb]. subst i.
    assert (lp = true) as Hl by (destruct lp; [reflexivity | lia]).
    clearbody lp. subst lp.
    change (month_day true 365) with (12, 31).
    destruct (Z.eq_dec c 24) as [->|Hc24].
    + assert (b = 3) as -> by lia.
      change (36524 * 3 + 1461 * 24 + 365 * 3 + 365) with 146096.
      vm_compute (146096 / 36524). vm_compute (146096 mod 36524).
      vm_compute (0 / 1461). vm_compute (0 mod 1461).
      vm_compute (0 / 365). vm_compute (0 mod 365).
      simpl. f_equal. lia.
    + destruct (div_mod_unique_pos
        (36524 * b + 1461 * c + 365 * 3 + 365) b
        (1461 * c + 365 * 3 + 365) 36524) as [-> ->]; [lia | lia | lia |].
      destruct (div_mod_unique_pos
        (1461 * c + 365 * 3 + 365) c 1460 1461) as [-> ->]; [lia | lia | lia |].
      vm_compute (1460 / 365). vm_compute (1460 mod 365).
      simpl. replace (b =? 4) with false by (symmetry; apply Z.eqb_neq; lia).
      simpl. f_equal. lia.
  - destruct (div_mod_unique_pos
      (36524 * b + 1461 * c + 365 * d + i) b
      (1461 * c + 365 * d + i) 36524) as [-> ->]; [lia | lia | lia |].
    destruct (div_mod_unique_pos
      (1461 * c + 365 * d + i) c (365 * d + i) 1461) as [-> ->];
      [lia | lia | lia |].
    destruct (div_mod_unique_pos (365 * d + i) d i 365) as [-> ->];
      [lia | lia | lia |].
    replace (d =? 4) with false by (symmetry; apply Z.eqb_neq; lia).
    replace (b =? 4) with false by (symmetry; apply Z.eqb_neq; lia).
    simpl. fold lp. destruct (month_day lp i). f_equal. lia.
Qed.

Lemma days_before_year_succ (y : Z) :
  days_before_year (y + 1) = days_before_year y + days_in_year y.
Proof.
  destruct (year_decomp y) as (a & b & c & d & -> & Hb & Hc & Hd).
  unfold days_in_year. rewrite is_leap_decomp by assumption.
  rewrite days_before_year_decomp by assumption.
  unfold days_before_year, DI400Y, DI100Y, DI4Y.
  destruct (Z.eqb_spec d 3), (Z.eqb_spec c 24), (Z.eqb_spec b 3);
    simpl; Z.div_mod_to_equations; lia.
Qed.

Lemma days_in_year_bounds (y : Z) : 365 ≤ days_in_year y ≤ 366.
Proof. unfold days_in_year. destruct (is_leap y); lia. Qed.

Lemma days_before_year_mono (y y' : Z) :
  y ≤ y' → days_before_year y ≤ days_before_year y'.
Proof.
  intros H. replace y' with (y + Z.of_nat (Z.to_nat (y' - y))) by lia.
  induction (Z.to_nat (y' - y)) as [|k IH].
  - rewrite Z.add_0_r. lia.
  - rewrite Nat2Z.inj_succ, <- Z.add_1_r, Z.add_assoc.
    rewrite days_before_year_succ. pose proof (days_in_year_bounds (y + Z.of_nat k)).
    lia.
Qed.

Lemma days_before_year_lt (y y' : Z) :
  y < y' → days_before_year y + days_in_year y ≤ days_before_year y'.
Proof.
  intros H. rewrite <- days_before_year_succ.
  apply days_before_year_mono. lia.
Qed.

Lemma ordinal_decomp (n : Z) :
  ∃ y i, n = days_before_year y + 1 + i ∧ 0 ≤ i < days_in_year y.
Proof.
  set (n0 := n - 1).
  set (a := n0 / 146097). set (r1 := n0 mod 146097).
  set (b := if r1 / 36524 =? 4 then 3 else r1 / 36524).
  set (r2 := r1 - 36524 * b).
  set (c := r2 / 1461). set (r3 := r2 mod 1461).
  set (d := if r3 / 365 =? 4 then 3 else r3 / 365).
  set (i := r3 - 365 * d).
  assert (0 ≤ r1 < 146097) as Hr1 by (apply Z.mod_pos_bound; lia).
  assert (n0 = 146097 * a + r1) as Hn0
    by (apply Z.div_mod; lia).
  assert (0 ≤ b ≤ 3 ∧ 0 ≤ r2 ≤ 36524 ∧ (r2 = 36524 → b = 3)) as (Hb & Hr2 & Hr2').
  { unfold r2, b. destruct (Z.eqb_spec (r1 / 36524) 4);
      Z.div_mod_to_equations; lia. }
  assert (0 ≤ c ≤ 24 ∧ 0 ≤ r3 < 1461 ∧ r2 = 1461 * c + r3
          ∧ (c = 24 → r3 = 1460 → b = 3)) as (Hc & Hr3 & Hr2'' & Hc').
  { unfold c, r3. Z.div_mod_to_equations. lia. }
  assert (0 ≤ d ≤ 3 ∧ 0 ≤ i ≤ 365 ∧ (i = 365 → d = 3 ∧ r3 = 1460))
    as (Hd & Hi & Hi').
  { unfold i, d. destruct (Z.eqb_spec (r3 / 365) 4);
      Z.div_mod_to_equations; lia. }
  exists (400 * a + 100 * b + 4 * c + d + 1), i.
  unfold days_in_year. rewrite is_leap_decomp by assumption.
  rewrite days_before_year_decomp by assumption.
  unfold DI400Y, DI100Y, DI4Y. split.
  - unfold i, r2 in *. lia.
  - destruct (Z.eqb_spec d 3), (Z.eqb_spec c 24), (Z.eqb_spec b 3);
      simpl; lia.
Qed.

Lemma toordinal_in_year (y i : Z) :
  0 ≤ i < days_in_year y →
  toordinal (let '(m, d) := month_day (is_leap y) i in Date y m d)
  = days_before_year y + 1 + i.
Proof.
  intros Hi. pose proof (month_day_spec (is_leap y) i Hi) as H.
  destruct (month_day (is_leap y) i) as [m d].
  unfold toordinal, ymd2ord, days_before_month. simpl. lia.
Qed.

Lemma toordinal_ord2ymd (n : Z) : toordinal (ord2ymd n) = n.
Proof.
  destruct (ordinal_decomp n) as (y & i & -> & Hi).
  rewrite ord2ymd_in_year by assumption. by apply toordinal_in_year.
Qed.

Lemma month_day_inv (lp : bool) (m d : Z) :
  1 ≤ m ≤ 12 →
  1 ≤ d ≤ DAYS_IN_MONTH m + (if (m =? 2) && lp then 1 else 0) →
  month_day lp
    (DAYS_BEFORE_MONTH m + (if (2 <? m) && lp then 1 else 0) + d - 1)
  = (m, d).
Proof.
  intros Hm Hd.
  pose (chk := λ (lp : bool) (m d : Z),
    (DAYS_IN_MONTH m + (if (m =? 2) && lp then 1 else 0) <? d)
    || bool_decide (month_day lp
         (DAYS_BEFORE_MONTH m + (if (2 <? m) && lp then 1 else 0) + d - 1)
        = (m, d))).
  assert (chk lp m d = true) as Hc.
  { assert (1 ≤ d < 1 + 31) as Hd'
      by (assert (m = 1 ∨ m = 2 ∨ m = 3 ∨ m = 4 ∨ m = 5 ∨ m = 6 ∨ m = 7
                  ∨ m = 8 ∨ m = 9 ∨ m = 10 ∨ m = 11 ∨ m = 12) as Hm' by lia;
          destruct lp; decompose [or] Hm'; subst; simpl in Hd; lia).
    clear Hd. revert d Hd'. apply (forallb_seqZ (chk lp m)).
    revert m Hm. assert (∀ m, 1 ≤ m < 1 + 12 →
      forallb (chk lp m) (seqZ 1 31) = true) as H; [|intros; apply H; lia].
    apply (forallb_seqZ (λ m, forallb (chk lp m) (seqZ 1 31))).
    destruct lp; vm_compute; reflexivity. }
  unfold chk in Hc. apply orb_prop in Hc as [Hc|Hc].
  - lia.
  - by apply bool_decide_eq_true in Hc.
Qed.

Lemma valid_day_in_year (dt : date) :
  valid dt →
  0 ≤ days_before_month (year dt) (month dt) + day dt - 1 < days_in_year (year dt).
Proof.
  destruct dt as [y m d]. unfold valid, days_in_month, days_before_month, days_in_year.
  simpl. intros (_ & Hm & Hd).
  assert (m = 1 ∨ m = 2 ∨ m = 3 ∨ m = 4 ∨ m = 5 ∨ m = 6 ∨ m = 7
          ∨ m = 8 ∨ m = 9 ∨ m = 10 ∨ m = 11 ∨ m = 12) as Hm' by lia.
  destruct (is_leap y); decompose [or] Hm'; subst; simpl in *; lia.
Qed.

Lemma ord2ymd_toordinal (dt : date) : valid dt → ord2ymd (toordinal dt) = dt.
Proof.
  intros Hv. pose proof (valid_day_in_year dt Hv) as Hi.
  destruct dt as [y m d]. destruct Hv as (_ & Hm & Hd). simpl in *.
  unfold toordinal, ymd2ord. simpl.
  replace (days_before_year y + days_before_month y m + d)
    with (days_before_year y + 1 + (days_before_month y m + d - 1)) by lia.
  rewrite ord2ymd_in_year by assumption.
  unfold days_before_month, days_in_month in *.
  rewrite month_day_inv; [reflexivity | assumption |].
  destruct (Z.eqb_spec m 2); subst; destruct (is_leap y); simpl in *; lia.
Qed.

(** ** Yearly rules: the dates of one year *)

Lemma days_in_year_eq (y : Z) : days_in_year y = Rrule.yearlen (is_leap y).
Proof. unfold days_in_year, Rrule.yearlen. by destruct (is_leap y). Qed.

Lemma toordinal_jan1 (y : Z) : toordinal (Date y 1 1) = days_before_year y + 1.
Proof. unfold toordinal, ymd2ord, days_before_month. simpl. lia. Qed.

Lemma weekday_bounds (d : date) : 0 ≤ weekday d < 7.
Proof. unfold weekday. apply Z.mod_pos_bound. lia. Qed.

Lemma year_dayset_range b lp yw i :
  i ∈ Rrule.year_dayset b lp yw → 0 ≤ i < Rrule.yearlen lp.
Proof.
  unfold Rrule.year_dayset. rewrite list_elem_of_filter, elem_of_seqZ. lia.
Qed.

Lemma year_dates_days (b : Rrule.byrules) (y : Z) :
  Rrule.year_dates b y
  = day_of_year y <$> Rrule.year_dayset b (is_leap y) (weekday (Date y 1 1)).
Proof.
  unfold Rrule.year_dates. cbv zeta. apply list_fmap_ext.
  intros k i Hi. apply list_elem_of_lookup_2, year_dayset_range in Hi.
  rewrite toordinal_jan1. unfold day_of_year.
  apply ord2ymd_in_year. by rewrite days_in_year_eq.
Qed.

Lemma weekday_day_of_year (y i : Z) :
  0 ≤ i < days_in_year y →
  weekday (day_of_year y i) = (weekday (Date y 1 1) + i) mod 7.
Proof.
  intros Hi. unfold weekday at 1, day_of_year.
  rewrite toordinal_in_year by assumption.
  unfold weekday. rewrite toordinal_jan1.
  rewrite Z.add_mod_idemp_l by lia. f_equal. lia.
Qed.

Lemma regularb_spec (b : Rrule.byrules) (M lo hi : Z) (wd : option Z) (y : Z) :
  regularb b M lo hi wd = true →
  ∃ d, Rrule.year_dates b y = [Date y M d] ∧ lo ≤ d ≤ hi
       ∧ (∀ w, wd = Some w → weekday (Date y M d) = w).
Proof.
  intros Hreg. unfold regularb in Hreg.
  rewrite forallb_forall in Hreg.
  specialize (Hreg (is_leap y)).
  assert (In (is_leap y) [true; false]) as Hin
    by (destruct (is_leap y); simpl; auto).
  specialize (Hreg Hin). clear Hin.
  pose proof (weekday_bounds (Date y 1 1)) as Hyw.
  apply (forallb_seqZ _ 0 7) with (i := weekday (Date y 1 1)) in Hreg;
    [|lia].
  rewrite year_dates_days.
  destruct (Rrule.year_dayset b (is_leap y) (weekday (Date y 1 1)))
    as [|i [|]]; try discriminate.
  pose proof (weekday_day_of_year y i) as Hwd.
  change (day_of_year y <$> [i]) with [day_of_year y i].
  unfold day_of_year in *. rewrite days_in_year_eq in Hwd.
  destruct (month_day (is_leap y) i) as [m d].
  repeat (apply andb_prop in Hreg as [Hreg ?]).
  assert (m = M) as -> by lia.
  exists d. split; [reflexivity|]. split; [lia|].
  intros w ->. rewrite Hwd by lia. lia.
Qed.

(** ** Yearly rules: the sequence of the years *)

Section yearly.
(** A rule without [until] whose years each hold one date, [f y]. *)
Variable r : Rrule.rrule.
Variable f : Z → date.
Hypothesis Huntil : Rrule.until r = None.
Hypothesis Hone : ∀ y, Rrule.year_dates (Rrule.by_ r) y = [f y].

Lemma iter_years_from (y0 : Z) :
  (∀ y, y0 ≤ y → leb (Rrule.dtstart r) (f y) = true) →
  ∀ (fuel : nat) (y c : Z),
    y0 ≤ y ≤ MAXYEAR → fuel = Z.to_nat (MAXYEAR - y + 1) → 0 ≤ c →
    Rrule.iter_years r fuel y (Some c)
    = f <$> seqZ y (Z.min c (MAXYEAR - y + 1)).
Proof.
  intros Hge fuel. induction fuel as [|fuel IH]; intros y c Hy Hfuel Hc.
  { lia. }
  simpl. rewrite Hone. simpl. rewrite Huntil, Hge by lia.
  destruct (Z.ltb_spec (c - 1) 0) as [Hc0|Hc0].
  - assert (c = 0) as -> by lia. by rewrite Z.min_l by lia.
  - destruct (Z.ltb_spec MAXYEAR (y + 1)) as [Hmax|Hmax].
    + assert (y = MAXYEAR) as -> by lia.
      replace (Z.min c (MAXYEAR - MAXYEAR + 1)) with 1 by lia.
      reflexivity.
    + rewrite IH by lia.
      replace (Z.min c (MAXYEAR - y + 1))
        with (Z.succ (Z.min (c - 1) (MAXYEAR - (y + 1) + 1))) by lia.
      rewrite (seqZ_cons y) by lia. rewrite Z.pred_succ.
      reflexivity.
Qed.

Lemma iter_regular (c : Z) :
  Rrule.count r = Some c → 0 ≤ c →
  (∀ y, year (f y) = y) →
  1 ≤ year (Rrule.dtstart r) ≤ MAXYEAR →
  let y0 := year (Rrule.dtstart r) in
  let off := if leb (Rrule.dtstart r) (f y0) then 0 else 1 in
  Rrule.iter r = f <$> seqZ (y0 + off) (Z.min c (MAXYEAR - (y0 + off) + 1)).
Proof.
  intros Hcount Hc Hyear Hy0 y0 off.
  assert (∀ y, y0 + 1 ≤ y → leb (Rrule.dtstart r) (f y) = true) as Hlater.
  { intros y Hy. unfold leb, ltb. rewrite Hyear. fold y0.
    replace (y <? y0) with false by (symmetry; apply Z.ltb_ge; lia).
    replace (y =? y0) with false by (symmetry; apply Z.eqb_neq; lia).
    reflexivity. }
  unfold Rrule.iter. fold y0. rewrite Hcount. unfold off.
  destruct (leb (Rrule.dtstart r) (f y0)) eqn:Hfirst.
  - rewrite Z.add_0_r. apply (iter_years_from y0); [|lia|reflexivity|lia].
    intros y Hy. destruct (Z.eq_dec y y0) as [->|]; [done|].
    apply Hlater. lia.
  - assert (∃ fuel, Z.to_nat (MAXYEAR - y0 + 1) = S fuel
                    ∧ fuel = Z.to_nat (MAXYEAR - (y0 + 1) + 1))
      as (fuel & -> & Hfuel).
    { exists (Z.to_nat (MAXYEAR - y0)). split; [lia|f_equal; lia]. }
    simpl. rewrite Hone. simpl. rewrite Huntil, Hfirst.
    destruct (Z.ltb_spec MAXYEAR (y0 + 1)) as [Hmax|Hmax].
    + rewrite Z.min_r by lia.
      replace (MAXYEAR - (y0 + 1) + 1) with (MAXYEAR - y0) by lia.
      by replace (MAXYEAR - y0) with 0 by lia.
    + simpl. apply (iter_years_from (y0 + 1)); [done|lia|done|lia].
Qed.
End yearly.

(** ** The rule methods as yearly rules *)

Ltac eval_rule :=
  intros; unfold _thanksgiving, _labor_day, _mlk_day, _memorial_day,
    _independence_day, _fall_start, _fall_break_start,
    _spring_withdraw_deadline, _irule;
  generalize Rrule.iter; intros it; vm_compute; reflexivity.

Lemma thanksgiving_eval (ds : date) (c : Z) :
  _thanksgiving (VDate ds) VNone (VInt c)
  = Ok (Rrule.iter (rule_of thanksgiving_by ds c)).
Proof. eval_rule. Qed.

Lemma labor_day_eval (ds : date) (c : Z) :
  _labor_day (VDate ds) VNone (VInt c)
  = Ok (Rrule.iter (rule_of labor_day_by ds c)).
Proof. eval_rule. Qed.

Lemma mlk_day_eval (ds : date) (c : Z) :
  _mlk_day (VDate ds) VNone (VInt c)
  = Ok (Rrule.iter (rule_of mlk_day_by ds c)).
Proof. eval_rule. Qed.

Lemma memorial_day_eval (ds : date) (c : Z) :
  _memorial_day (VDate ds) VNone (VInt c)
  = Ok (Rrule.iter (rule_of memorial_day_by ds c)).
Proof. eval_rule. Qed.

Lemma independence_day_eval (ds : date) (c : Z) :
  _independence_day (VDate ds) VNone (VInt c)
  = Ok (Rrule.iter (rule_of independence_day_by ds c)).
Proof. eval_rule. Qed.

Lemma fall_start_eval (ds : date) (c : Z) :
  _fall_start (VDate ds) VNone (VInt c)
  = Ok (Rrule.iter (rule_of fall_start_by ds c)).
Proof. eval_rule. Qed.

Lemma fall_break_start_eval (ds : date) (c : Z) :
  _fall_break_start (VDate ds) VNone (VInt c)
  = Ok (Rrule.iter (rule_of fall_break_start_by ds c)).
Proof. eval_rule. Qed.

Lemma spring_withdraw_eval (ds : date) (c : Z) :
  _spring_withdraw_deadline (VDate ds) VNone (VInt c)
  = Ok (Rrule.iter (rule_of spring_withdraw_by ds c)).
Proof. eval_rule. Qed.

Lemma thanksgiving_regular :
  regularb thanksgiving_by 11 22 28 (Some Rrule.TH) = true.
Proof. vm_compute. reflexivity. Qed.

Lemma labor_day_regular : regularb labor_day_by 9 1 7 (Some Rrule.MO) = true.
Proof. vm_compute. reflexivity. Qed.

Lemma mlk_day_regular : regularb mlk_day_by 1 15 21 (Some Rrule.MO) = true.
Proof. vm_compute. reflexivity. Qed.

Lemma memorial_day_regular :
  regularb memorial_day_by 3 25 31 (Some Rrule.MO) = true.
Proof. vm_compute. reflexivity. Qed.

Lemma independence_day_regular :
  regularb independence_day_by 7 4 4 None = true.
Proof. vm_compute. reflexivity. Qed.

Lemma fall_start_regular :
  regularb fall_start_by 8 18 24 (Some Rrule.MO) = true.
Proof. vm_compute. reflexivity. Qed.

Lemma fall_break_start_regular :
  regularb fall_break_start_by 10 18 24 (Some Rrule.MO) = true.
Proof. vm_compute. reflexivity. Qed.

Lemma spring_withdraw_regular :
  regularb spring_withdraw_by 3 15 21 (Some Rrule.MO) = true.
Proof. vm_compute. reflexivity. Qed.

Section regular.
Context (b : Rrule.byrules) (M lo hi : Z) (wd : option Z).
Hypothesis Hreg : regularb b M lo hi wd = true.

Lemma occ_spec (y : Z) :
  Rrule.year_dates b y = [occ b y]
  ∧ year (occ b y) = y ∧ month (occ b y) = M ∧ lo ≤ day (occ b y) ≤ hi
  ∧ (∀ w, wd = Some w → weekday (occ b y) = w).
Proof.
  destruct (regularb_spec b M lo hi wd y Hreg) as (d & Hd & Hr & Hw).
  unfold occ. rewrite Hd. simpl. done.
Qed.

Lemma occ_year (y : Z) : year (occ b y) = y.
Proof. apply occ_spec. Qed.

Lemma occ_month (y : Z) : month (occ b y) = M.
Proof. apply occ_spec. Qed.

Lemma occ_day (y : Z) : lo ≤ day (occ b y) ≤ hi.
Proof. apply occ_spec. Qed.

(** From the first of August of [sy], the rule yields the dates of
    [c] successive years; the first is in [sy] when its month is
    August or later, and in [sy + 1] otherwise. *)
Lemma iter_from_august (sy c : Z) :
  1 ≤ lo → 1 ≤ sy → 0 ≤ c → sy + c ≤ MAXYEAR →
  Rrule.iter (rule_of b (Date sy 8 1) c)
  = occ b <$> seqZ (sy + (if M <? 8 then 1 else 0)) c.
Proof.
  intros Hlo Hsy Hc Hmax.
  rewrite (iter_regular (rule_of b (Date sy 8 1) c) (occ b)) with (c := c);
    try done; simpl.
  - assert (leb (Date sy 8 1) (occ b sy) = negb (M <? 8)) as ->.
    { unfold leb, ltb. rewrite occ_year, occ_month. simpl.
      pose proof (occ_day sy).
      rewrite Z.ltb_irrefl, Z.eqb_refl. simpl.
      replace (day (occ b sy) <? 1) with false
        by (symmetry; apply Z.ltb_ge; lia).
      by rewrite andb_false_r, orb_false_r. }
    destruct (M <? 8); simpl; f_equal; f_equal; unfold MAXYEAR in *; lia.
  - intros y. apply occ_spec.
  - apply occ_year.
  - unfold MAXYEAR in *. lia.
Qed.

(** From the first of January of [y], a count of one yields the date
    of year [y]. *)
Lemma iter_from_january (y : Z) :
  1 ≤ lo → 1 ≤ M → 1 ≤ y ≤ MAXYEAR →
  Rrule.iter (rule_of b (Date y 1 1) 1) = [occ b y].
Proof.
  intros Hlo HM Hy.
  rewrite (iter_regular (rule_of b (Date y 1 1) 1) (occ b)) with (c := 1);
    try done; simpl.
  - assert (leb (Date y 1 1) (occ b y) = true) as ->.
    { unfold leb, ltb. rewrite occ_year, occ_month. simpl.
      pose proof (occ_day y).
      rewrite Z.ltb_irrefl, Z.eqb_refl. simpl.
      replace (M <? 1) with false by (symmetry; apply Z.ltb_ge; lia).
      replace (day (occ b y) <? 1) with false
        by (symmetry; apply Z.ltb_ge; lia).
      by rewrite andb_false_r. }
    rewrite Z.add_0_r. by replace (1 `min` (MAXYEAR - y + 1)) with 1 by lia.
  - intros y'. apply occ_spec.
  - apply occ_year.
Qed.
End regular.

(** ** One round of the loop of the constructor *)

Lemma add_shift (d : date) (k : Z) :
  0 < toordinal d + k ≤ MAXORDINAL →
  add d (Timedelta k) = Ok (shift d k).
Proof.
  intros H. unfold add, shift. simpl.
  destruct (Z.ltb_spec 0 (toordinal d + k)); [|lia].
  destruct (Z.leb_spec (toordinal d + k) MAXORDINAL); [|lia].
  reflexivity.
Qed.

Lemma toordinal_shift (d : date) (k : Z) : toordinal (shift d k) = toordinal d + k.
Proof. apply toordinal_ord2ymd. Qed.

Lemma shift_shift (d : date) (j k s : Z) :
  j + k = s → shift (shift d j) k = shift d s.
Proof. intros <-. unfold shift. rewrite toordinal_ord2ymd. f_equal. lia. Qed.

(** Merges two successive shifts by constants into one. *)
Ltac merge_shifts :=
  match goal with
  | |- context [shift (shift ?d ?j) ?k] =>
      let s := eval vm_compute in (j + k) in
      rewrite (shift_shift d j k s) by reflexivity
  end.

Lemma bind_Ok {A B} (a : A) (k : A → result B) : (Ok a ≫= k) = k a.
Proof. reflexivity. Qed.

Lemma next_cons (d : date) (g : list date) : next (d :: g) = Ok (d, g).
Proof. reflexivity. Qed.

Lemma init_year_spec (yr : Z) (g : gens) (fs fbs th ld sw ind : date)
    (fss fbss ths lds sws inds : list date) :
  g_fall_start g = fs :: fss →
  g_fall_break_start g = fbs :: fbss →
  g_thanksgiving g = th :: ths →
  g_labor_day g = ld :: lds →
  g_spring_withdraw g = sw :: sws →
  g_independence_day g = ind :: inds →
  1 ≤ toordinal fs ∧ toordinal fs + 270 ≤ MAXORDINAL →
  1 ≤ toordinal fbs ∧ toordinal fbs + 2 ≤ MAXORDINAL →
  2 ≤ toordinal th ∧ toordinal th + 1 ≤ MAXORDINAL →
  init_year yr g
  = Ok (year_entry yr fs fbs th ld sw ind,
        {| g_thanksgiving := ths;
           g_labor_day := lds;
           g_mlk_day := g_mlk_day g;
           g_memorial_day := g_memorial_day g;
           g_independence_day := inds;
           g_fall_start := fss;
           g_fall_break_start := fbss;
           g_spring_withdraw := sws |}).
Proof.
  intros Hfs Hfbs Hth Hld Hsw Hind Bfs Bfbs Bth.
  unfold init_year, _add_days, term_length, xmas_break, sum_term_length,
    timedelta_days, timedelta_weeks.
  rewrite Hfs, Hfbs, Hth, Hld, Hsw, Hind.
  change (7 * 9) with 63. change (7 * 8) with 56.
  unfold year_entry.
  destruct (yr =? 2013);
    repeat first
      [ rewrite next_cons
      | rewrite bind_Ok
      | rewrite add_shift by (rewrite ?toordinal_shift; lia)
      | merge_shifts
      | progress cbv beta iota zeta ];
    change (203 + 4) with 207; change (196 + 4) with 200;
    reflexivity.
Qed.

(** ** The loop of the constructor *)

Lemma days_before_year_nonneg (y : Z) : 1 ≤ y → 0 ≤ days_before_year y.
Proof.
  intros H. change 0 with (days_before_year 1).
  by apply days_before_year_mono.
Qed.

Lemma MAXORDINAL_eq : MAXORDINAL = days_before_year (MAXYEAR + 1).
Proof. reflexivity. Qed.

Lemma toordinal_bounds (d : date) :
  1 ≤ month d ≤ 12 → 1 ≤ day d ≤ 31 →
  days_before_year (year d) + DAYS_BEFORE_MONTH (month d) + day d
  ≤ toordinal d ≤ days_before_year (year d) + 366.
Proof.
  destruct d as [y m d]. simpl. intros Hm Hd.
  unfold toordinal, ymd2ord, days_before_month. simpl.
  assert (m = 1 ∨ m = 2 ∨ m = 3 ∨ m = 4 ∨ m = 5 ∨ m = 6 ∨ m = 7
          ∨ m = 8 ∨ m = 9 ∨ m = 10 ∨ m = 11 ∨ m = 12) as Hm' by lia.
  destruct (is_leap y); decompose [or] Hm'; subst; simpl; lia.
Qed.

Section occ_bounds.
Context (b : Rrule.byrules) (M lo hi : Z) (wd : option Z).
Hypothesis Hreg : regularb b M lo hi wd = true.
Hypothesis HM : 1 ≤ M ≤ 12.
Hypothesis Hlohi : 1 ≤ lo ∧ hi ≤ 31.

Lemma occ_toordinal (y k : Z) :
  1 ≤ y → y + 2 ≤ MAXYEAR + 1 →
  0 < DAYS_BEFORE_MONTH M + lo + k → k ≤ 270 →
  1 ≤ toordinal (occ b y) + k ≤ MAXORDINAL.
Proof.
  intros Hy Hmax Hk Hk'.
  pose proof (occ_year b M lo hi wd Hreg y) as Hyear.
  pose proof (occ_month b M lo hi wd Hreg y) as Hmonth.
  pose proof (occ_day b M lo hi wd Hreg y) as Hday.
  pose proof (toordinal_bounds (occ b y)) as Hb.
  rewrite Hyear, Hmonth in Hb. specialize (Hb HM ltac:(lia)).
  pose proof (days_before_year_nonneg y Hy).
  pose proof (days_before_year_succ y) as H1.
  pose proof (days_before_year_succ (y + 1)) as H2.
  pose proof (days_in_year_bounds y). pose proof (days_in_year_bounds (y + 1)).
  pose proof (days_before_year_mono (y + 1 + 1) (MAXYEAR + 1) ltac:(lia)).
  rewrite MAXORDINAL_eq. lia.
Qed.
End occ_bounds.

Lemma seqZ_succ_nat (y : Z) (n : nat) :
  seqZ y (Z.of_nat (S n)) = y :: seqZ (y + 1) (Z.of_nat n).
Proof.
  rewrite seqZ_cons by lia. f_equal. f_equal; lia.
Qed.

Lemma init_years_spec (n : nat) :
  ∀ (y : Z) (mlk mem : list date) (m : gmap Z (gmap string date)),
    1 ≤ y → y + Z.of_nat n ≤ MAXYEAR →
    init_years (seqZ y (Z.of_nat n)) (gens_from y (Z.of_nat n) mlk mem) m
    = Ok (store_years m (seqZ y (Z.of_nat n))).
Proof.
  induction n as [|n IH]; intros y mlk mem m Hy Hmax.
  { reflexivity. }
  unfold gens_from. rewrite !seqZ_succ_nat. rewrite !fmap_cons.
  cbn [init_years].
  erewrite init_year_spec; try reflexivity.
  - rewrite bind_Ok. cbv beta iota.
    specialize (IH (y + 1) mlk mem (<[y := entry y]> m)).
    unfold gens_from in IH. cbn [g_mlk_day g_memorial_day].
    fold (entry y). rewrite IH by lia. reflexivity.
  - pose proof (occ_toordinal _ _ _ _ _ fall_start_regular
                  ltac:(lia) ltac:(lia) y 0 Hy ltac:(lia) ltac:(simpl; lia) ltac:(lia)).
    pose proof (occ_toordinal _ _ _ _ _ fall_start_regular
                  ltac:(lia) ltac:(lia) y 270 Hy ltac:(lia) ltac:(simpl; lia) ltac:(lia)).
    lia.
  - pose proof (occ_toordinal _ _ _ _ _ fall_break_start_regular
                  ltac:(lia) ltac:(lia) y 0 Hy ltac:(lia) ltac:(simpl; lia) ltac:(lia)).
    pose proof (occ_toordinal _ _ _ _ _ fall_break_start_regular
                  ltac:(lia) ltac:(lia) y 2 Hy ltac:(lia) ltac:(simpl; lia) ltac:(lia)).
    lia.
  - pose proof (occ_toordinal _ _ _ _ _ thanksgiving_regular
                  ltac:(lia) ltac:(lia) y (-1) Hy ltac:(lia) ltac:(simpl; lia) ltac:(lia)).
    pose proof (occ_toordinal _ _ _ _ _ thanksgiving_regular
                  ltac:(lia) ltac:(lia) y 1 Hy ltac:(lia) ltac:(simpl; lia) ltac:(lia)).
    lia.
Qed.

(** ** The constructor as a whole *)

Lemma validb_valid (d : date) : validb d = true ↔ valid d.
Proof.
  unfold validb, valid. rewrite !andb_true_iff, !Z.leb_le. tauto.
Qed.

Lemma mk_date_ok (y m d : Z) :
  valid (Date y m d) → mk_date y m d = Ok (Date y m d).
Proof.
  intros Hv. unfold mk_date. apply validb_valid in Hv. by rewrite Hv.
Qed.

Lemma mk_date_inv (y m d : Z) (dt : date) :
  mk_date y m d = Ok dt → dt = Date y m d ∧ valid dt.
Proof.
  unfold mk_date. destruct (validb (Date y m d)) eqn:Hv; [|discriminate].
  intros [= <-]. split; [done|]. by apply validb_valid.
Qed.

Lemma valid_august_first (y : Z) : 1 ≤ y ≤ MAXYEAR → valid (Date y 8 1).
Proof.
  intros Hy. unfold valid, days_in_month, MINYEAR. simpl. lia.
Qed.

Lemma valid_january_first (y : Z) : 1 ≤ y ≤ MAXYEAR → valid (Date y 1 1).
Proof.
  intros Hy. unfold valid, days_in_month, MINYEAR. simpl. lia.
Qed.

Lemma seqZ_to_nat (y n : Z) : seqZ y n = seqZ y (Z.of_nat (Z.to_nat n)).
Proof. unfold seqZ. by rewrite Nat2Z.id. Qed.

Lemma store_years_lookup (yrs : list Z) :
  ∀ (m : gmap Z (gmap string date)) (Y : Z),
    store_years m yrs !! Y
    = if decide (Y ∈ yrs) then Some (entry Y) else m !! Y.
Proof.
  induction yrs as [|yr yrs IH]; intros m Y.
  { rewrite decide_False by apply not_elem_of_nil. reflexivity. }
  unfold store_years in *. cbn [foldl]. rewrite IH.
  destruct (decide (Y ∈ yrs)) as [Hin|Hnin].
  - rewrite decide_True by (by right). done.
  - destruct (decide (Y = yr)) as [->|Hne].
    + rewrite lookup_insert_eq. by rewrite decide_True by left.
    + rewrite lookup_insert_ne by done.
      rewrite decide_False; [done|].
      intros [?|?]%elem_of_cons; done.
Qed.

Lemma init_spec (now_year sy ey : Z) :
  1 ≤ sy ≤ MAXYEAR → 1 ≤ ey ≤ MAXYEAR →
  ∃ cal, __init__ now_year sy (Some ey) = Ok cal ∧ calendar_of sy ey cal.
Proof.
  intros Hsy Hey. unfold __init__.
  rewrite (mk_date_ok sy 8 1) by (by apply valid_august_first).
  rewrite bind_Ok. cbv beta zeta.
  change (default (now_year + 2) (Some ey)) with ey.
  rewrite (mk_date_ok ey 8 1) by (by apply valid_august_first).
  rewrite bind_Ok. cbv beta zeta. cbn [year].
  rewrite length_seqZ.
  set (n := Z.to_nat (ey - sy)).
  rewrite (seqZ_to_nat sy (ey - sy)). fold n.
  assert (sy + Z.of_nat n ≤ MAXYEAR) as Hn by (unfold n, MAXYEAR in *; lia).
  rewrite thanksgiving_eval, labor_day_eval, mlk_day_eval, memorial_day_eval,
    independence_day_eval, fall_start_eval, fall_break_start_eval,
    spring_withdraw_eval.
  rewrite !bind_Ok. cbv beta.
  rewrite (iter_from_august _ _ _ _ _ thanksgiving_regular) by lia.
  rewrite (iter_from_august _ _ _ _ _ labor_day_regular) by lia.
  rewrite (iter_from_august _ _ _ _ _ independence_day_regular) by lia.
  rewrite (iter_from_august _ _ _ _ _ fall_start_regular) by lia.
  rewrite (iter_from_august _ _ _ _ _ fall_break_start_regular) by lia.
  rewrite (iter_from_august _ _ _ _ _ spring_withdraw_regular) by lia.
  cbv beta iota.
  change (11 <? 8) with false. change (9 <? 8) with false.
  change (7 <? 8) with true. change (8 <? 8) with false.
  change (10 <? 8) with false. change (3 <? 8) with true.
  cbv iota. rewrite !Z.add_0_r.
  pose proof (init_years_spec n sy
    (Rrule.iter (rule_of mlk_day_by (Date sy 8 1) (Z.of_nat n)))
    (Rrule.iter (rule_of memorial_day_by (Date sy 8 1) (Z.of_nat n)))
    ∅ ltac:(lia) Hn) as Hloop.
  unfold gens_from in Hloop. rewrite Hloop. rewrite bind_Ok.
  eexists. split; [reflexivity|].
  unfold calendar_of. cbn [years n_yrs min_date max_date holidays tags
    semesters dates].
  unfold n. rewrite <- !seqZ_to_nat.
  repeat split; try reflexivity. lia.
Qed.

(** ** Lookups in the dictionary of a year *)

(** Looks a literal key up in [year_entry]. *)
Ltac entry_lookup :=
  unfold entry, year_entry; cbv zeta;
  repeat (rewrite lookup_insert_ne by (intro; discriminate));
  first [ apply lookup_insert_eq | apply lookup_empty ].

Section entry_lookups.
Context (yr : Z) (fs fbs th ld sw ind : date).
Local Abbreviation e := (year_entry yr fs fbs th ld sw ind).

Lemma entry_fall_term_start : e !! "Fall Term Start" = Some fs.
Proof. entry_lookup. Qed.
Lemma entry_fall_classes_start : e !! "Fall Classes Start" = Some fs.
Proof. entry_lookup. Qed.
Lemma entry_fall_term_end : e !! "Fall Term End" = Some (shift fs 116).
Proof. entry_lookup. Qed.
Lemma entry_spring_term_start :
  e !! "Spring Term Start" = Some (shift fs 140).
Proof. entry_lookup. Qed.
Lemma entry_spring_term_end : e !! "Spring Term End" = Some (shift fs 256).
Proof. entry_lookup. Qed.
Lemma entry_spring_break_start :
  e !! "Spring Break Start"
  = Some (shift fs (if yr =? 2013 then 203 else 196)).
Proof. entry_lookup. Qed.
Lemma entry_summer_term_start :
  e !! "Summer Term Start" = Some (shift fs 266).
Proof. entry_lookup. Qed.
Lemma entry_summer_term_end : e !! "Summer Term End" = Some (shift fs 208).
Proof. entry_lookup. Qed.
Lemma entry_independenc_day : e !! "Independenc Day" = Some ind.
Proof. entry_lookup. Qed.
Lemma entry_independence_day : e !! "Independence Day" = None.
Proof. entry_lookup. Qed.
Lemma entry_classes_start : e !! "Classes Start" = None.
Proof. entry_lookup. Qed.
End entry_lookups.

Lemma calendar_dates_lookup (sy ey : Z) (cal : BSUCalendar) (Y : Z) :
  calendar_of sy ey cal →
  dates cal !! Y = if decide (sy ≤ Y < ey) then Some (entry Y) else None.
Proof.
  intros (_ & _ & _ & _ & _ & _ & _ & ->).
  rewrite store_years_lookup.
  destruct (decide (sy ≤ Y < ey)) as [H|H].
  - rewrite decide_True; [done|]. apply elem_of_seqZ. lia.
  - rewrite decide_False; [done|]. rewrite elem_of_seqZ. lia.
Qed.

(** *** The year of a term code *)

Lemma divmod_near_small (q r : Z) :
  0 ≤ r < 50 → divmod_near (q * 100 + r) 100 = (q, r).
Proof.
  intros Hr. unfold divmod_near.
  assert ((q * 100 + r) / 100 = q) as ->
    by (rewrite Z.div_add_l by lia; rewrite Z.div_small by lia; lia).
  assert ((q * 100 + r) mod 100 = r) as ->
    by (rewrite Z.add_comm, Z.mod_add by lia; apply Z.mod_small; lia).
  replace (100 <? 2 * r) with false by (symmetry; apply Z.ltb_ge; lia).
  replace (2 * r =? 100) with false by (symmetry; apply Z.eqb_neq; lia).
  reflexivity.
Qed.

Lemma round_hundreds_semester (y s : Z) :
  0 ≤ s < 50 → round_hundreds (y * 100 + s) = y * 100.
Proof.
  intros Hs. unfold round_hundreds. rewrite divmod_near_small by done.
  simpl. lia.
Qed.

Lemma int_of_true_div_100_exact (q : Z) :
  Z.abs q < 2 ^ 53 → int_of_true_div_100 (q * 100) = Ok q.
Proof.
  intros Hq. unfold int_of_true_div_100. cbv zeta.
  rewrite Z.div_mul by lia.
  assert (Z.log2 (Z.abs q) + 1 ≤ 53) as Hlog.
  { destruct (Z.eq_dec (Z.abs q) 0) as [->|Hne]; [simpl; lia|].
    assert (Z.log2 (Z.abs q) < 53); [|lia].
    apply Z.log2_lt_pow2; lia. }
  destruct (Z.leb_spec (Z.log2 (Z.abs q) + 1) 53); [done|lia].
Qed.

Lemma year_of_term_semester (y s : Z) :
  Z.abs y < 2 ^ 53 → 0 ≤ s < 50 → year_of_term (y * 100 + s) = Ok y.
Proof.
  intros Hy Hs. unfold year_of_term.
  rewrite round_hundreds_semester by done.
  by apply int_of_true_div_100_exact.
Qed.

(** *** Validity of the dates computed from ordinals *)

Lemma ord2ymd_valid (n : Z) : 1 ≤ n ≤ MAXORDINAL → valid (ord2ymd n).
Proof.
  intros Hn. destruct (ordinal_decomp n) as (y & i & -> & Hi).
  rewrite ord2ymd_in_year by assumption.
  pose proof (month_day_spec (is_leap y) i Hi) as Hmd.
  destruct (month_day (is_leap y) i) as [m d].
  unfold valid, days_in_month. simpl.
  assert (1 ≤ y ≤ MAXYEAR) as Hy.
  { split.
    - destruct (Z_le_gt_dec 1 y) as [|Hlt]; [done|].
      pose proof (days_before_year_lt y 1 ltac:(lia)) as H.
      change (days_before_year 1) with 0 in H. lia.
    - destruct (Z_le_gt_dec y MAXYEAR) as [|Hgt]; [done|].
      pose proof (days_before_year_mono (MAXYEAR + 1) y ltac:(lia)) as H.
      rewrite <- MAXORDINAL_eq in H. lia. }
  split; [done|]. split; [lia|].
  destruct (Z.eqb_spec m 2); subst; destruct (is_leap y); simpl in *; lia.
Qed.

Lemma toordinal_valid (d : date) : valid d → 1 ≤ toordinal d ≤ MAXORDINAL.
Proof.
  intros Hv. pose proof (valid_day_in_year d Hv) as Hi.
  destruct Hv as (Hy & Hm & Hd).
  unfold toordinal, ymd2ord.
  pose proof (days_before_year_nonneg (year d) ltac:(unfold MINYEAR in *; lia)).
  pose proof (days_before_year_succ (year d)) as Hs.
  pose proof (days_before_year_mono (year d + 1) (MAXYEAR + 1) ltac:(lia)).
  rewrite MAXORDINAL_eq. lia.
Qed.

(** The order of dates is the order of their ordinals. *)
Lemma days_before_month_succ (y m : Z) :
  1 ≤ m < 12 →
  days_before_month y (m + 1) = days_before_month y m + days_in_month y m.
Proof.
  intros Hm. unfold days_before_month, days_in_month.
  assert (m = 1 ∨ m = 2 ∨ m = 3 ∨ m = 4 ∨ m = 5 ∨ m = 6 ∨ m = 7
          ∨ m = 8 ∨ m = 9 ∨ m = 10 ∨ m = 11) as Hm' by lia.
  destruct (is_leap y); decompose [or] Hm'; subst; reflexivity.
Qed.

Lemma days_in_month_pos (y m : Z) : 1 ≤ m ≤ 12 → 28 ≤ days_in_month y m.
Proof.
  intros Hm. unfold days_in_month.
  assert (m = 1 ∨ m = 2 ∨ m = 3 ∨ m = 4 ∨ m = 5 ∨ m = 6 ∨ m = 7
          ∨ m = 8 ∨ m = 9 ∨ m = 10 ∨ m = 11 ∨ m = 12) as Hm' by lia.
  destruct (is_leap y); decompose [or] Hm'; subst; simpl; lia.
Qed.

Lemma days_before_month_lt (y m m' : Z) :
  1 ≤ m → m < m' → m' ≤ 12 →
  days_before_month y m + days_in_month y m ≤ days_before_month y m'.
Proof.
  intros Hm Hlt Hm'.
  replace m' with (m + 1 + Z.of_nat (Z.to_nat (m' - m - 1))) in * by lia.
  induction (Z.to_nat (m' - m - 1)) as [|k IH].
  - rewrite Z.add_0_r, days_before_month_succ by lia. lia.
  - rewrite Nat2Z.inj_succ, <- Z.add_1_r, Z.add_assoc in *.
    rewrite days_before_month_succ by lia.
    pose proof (days_in_month_pos y (m + 1 + Z.of_nat k) ltac:(lia)).
    specialize (IH ltac:(lia) ltac:(lia)). lia.
Qed.

Lemma ltb_toordinal (d1 d2 : date) :
  valid d1 → valid d2 → ltb d1 d2 = true ↔ toordinal d1 < toordinal d2.
Proof.
  intros Hv1 Hv2.
  pose proof (valid_day_in_year d1 Hv1) as Hi1.
  pose proof (valid_day_in_year d2 Hv2) as Hi2.
  destruct Hv1 as (Hy1 & Hm1 & Hd1), Hv2 as (Hy2 & Hm2 & Hd2).
  destruct d1 as [y1 m1 a1], d2 as [y2 m2 a2].
  unfold ltb, toordinal, ymd2ord. simpl in *.
  destruct (Z.lt_trichotomy y1 y2) as [Hy|[->|Hy]].
  - pose proof (days_before_year_lt y1 y2 Hy).
    replace (y1 <? y2) with true by (symmetry; apply Z.ltb_lt; lia).
    simpl. split; [lia|done].
  - rewrite Z.ltb_irrefl, Z.eqb_refl. simpl.
    destruct (Z.lt_trichotomy m1 m2) as [Hm|[->|Hm]].
    + pose proof (days_before_month_lt y2 m1 m2 ltac:(lia) Hm ltac:(lia)).
      replace (m1 <? m2) with true by (symmetry; apply Z.ltb_lt; lia).
      simpl. split; [lia|done].
    + rewrite Z.ltb_irrefl, Z.eqb_refl. simpl. rewrite Z.ltb_lt. lia.
    + pose proof (days_before_month_lt y2 m2 m1 ltac:(lia) Hm ltac:(lia)).
      replace (m1 <? m2) with false by (symmetry; apply Z.ltb_ge; lia).
      replace (m1 =? m2) with false by (symmetry; apply Z.eqb_neq; lia).
      simpl. split; [done|lia].
  - pose proof (days_before_year_lt y2 y1 Hy).
    replace (y1 <? y2) with false by (symmetry; apply Z.ltb_ge; lia).
    replace (y1 =? y2) with false by (symmetry; apply Z.eqb_neq; lia).
    simpl. split; [done|lia].
Qed.

(** ** The recurrence rules *)

(** C1.  The rule of [_thanksgiving] is [TH(4)], the fourth Thursday of
    November, which is not the last one in a November with five
    Thursdays: started in 2012 the rule yields 22 November 2012, and
    29 November 2012 is a later Thursday of that November. *)
Theorem thanksgiving_2012_is_not_last_thursday :
  _thanksgiving (VDate (Date 2012 8 1)) VNone (VInt 1)
  = Ok [Date 2012 11 22]
  ∧ valid (Date 2012 11 29)
  ∧ weekday (Date 2012 11 29) = Rrule.TH
  ∧ ltb (Date 2012 11 22) (Date 2012 11 29) = true.
Proof.
  split; [vm_compute; reflexivity|].
  split; [unfold valid; vm_compute; intuition discriminate|].
  split; vm_compute; reflexivity.
Qed.

(** ** [date_in_term] *)

Lemma date_in_term_stored (cal : BSUCalendar) (Y s : Z) (field : string)
    (yd : gmap string date) :
  Z.abs Y < 2 ^ 53 → semester_code s → dates cal !! Y = Some yd →
  date_in_term cal (Y * 100 + s) field = getitem yd field.
Proof.
  intros HY Hs Hyd. unfold date_in_term.
  rewrite year_of_term_semester by (unfold semester_code in Hs; lia).
  rewrite bind_Ok. unfold getitem. rewrite Hyd. apply bind_Ok.
Qed.

(** C2, counterexample.  In a calendar for 2012 to 2022 the term 202010
    has no field ["Classes Start"]: the lookup raises [KeyError]. *)
Lemma date_in_term_classes_start_fails :
  (cal ← __init__ 2026 2012 (Some 2022);
   date_in_term cal 202010 "Classes Start") = Raise KeyError.
Proof. vm_compute. reflexivity. Qed.

(** C2, amended.  When the range contains academic year 2020,
    [date_in_term(202010, "Fall Classes Start")] returns the date the
    fall start rule yields for 2020, the 24th of August 2020 (the
    second-to-last Monday of that month), while the field
    ["Classes Start"] raises [KeyError]; and for every year [Y] of the
    range and every semester code, [date_in_term] returns what the
    dictionary of year [Y] holds for the field. *)
Theorem date_in_term_fall_classes_start (now_year sy ey : Z) :
  1 ≤ sy ≤ 2020 → 2020 < ey ≤ MAXYEAR →
  ∃ cal,
    __init__ now_year sy (Some ey) = Ok cal
    ∧ date_in_term cal 202010 "Fall Classes Start" = Ok (Date 2020 8 24)
    ∧ _fall_start (VDate (Date 2020 1 1)) VNone (VInt 1)
      = Ok [Date 2020 8 24]
    ∧ date_in_term cal 202010 "Classes Start" = Raise KeyError
    ∧ (∀ Y s field,
         sy ≤ Y < ey → semester_code s →
         ∃ yd, dates cal !! Y = Some yd
               ∧ date_in_term cal (Y * 100 + s) field = getitem yd field).
Proof.
  intros Hsy Hey.
  destruct (init_spec now_year sy ey) as (cal & Hinit & Hcal);
    [unfold MAXYEAR in *; lia..|].
  exists cal. split; [done|].
  assert (∀ Y, sy ≤ Y < ey → dates cal !! Y = Some (entry Y)) as Hdates.
  { intros Y HY. rewrite (calendar_dates_lookup sy ey) by done.
    by rewrite decide_True. }
  assert (occ fall_start_by 2020 = Date 2020 8 24) as Hocc
    by (vm_compute; reflexivity).
  split; [|split; [|split]].
  - change 202010 with (2020 * 100 + 10).
    rewrite (date_in_term_stored cal 2020 10 _ (entry 2020));
      [|simpl; lia|unfold semester_code; lia|apply Hdates; lia].
    unfold getitem, entry. rewrite entry_fall_classes_start.
    by rewrite Hocc.
  - vm_compute. reflexivity.
  - change 202010 with (2020 * 100 + 10).
    rewrite (date_in_term_stored cal 2020 10 _ (entry 2020));
      [|simpl; lia|unfold semester_code; lia|apply Hdates; lia].
    unfold getitem, entry. by rewrite entry_classes_start.
  - intros Y s field HY Hs. exists (entry Y). split; [by apply Hdates|].
    apply date_in_term_stored; [|done|by apply Hdates].
    unfold MAXYEAR in *. assert (2 ^ 53 = 9007199254740992) as -> by done.
    lia.
Qed.

Lemma date_in_term_fall_classes_start_witness :
  ∃ cal,
    __init__ 2026 2012 (Some 2022) = Ok cal
    ∧ date_in_term cal 202010 "Fall Classes Start" = Ok (Date 2020 8 24)
    ∧ _fall_start (VDate (Date 2020 1 1)) VNone (VInt 1)
      = Ok [Date 2020 8 24]
    ∧ date_in_term cal 202010 "Classes Start" = Raise KeyError
    ∧ (∀ Y s field,
         2012 ≤ Y < 2022 → semester_code s →
         ∃ yd, dates cal !! Y = Some yd
               ∧ date_in_term cal (Y * 100 + s) field = getitem yd field).
Proof.
  apply (date_in_term_fall_classes_start 2026 2012 2022);
    unfold MAXYEAR; lia.
Defined.

(** ** [dates_by_tag] and [get_holiday] *)

(** C3.  [dates_by_tag] raises [NameError] for the undefined name [term]
    whatever the tag is, in or out of the tag vocabulary: its first
    statement reads [term], which is neither a parameter nor a name of
    the module.  No invalid-tag error is ever raised. *)
Theorem dates_by_tag_raises_name_error (cal : BSUCalendar) (tag : string) :
  dates_by_tag module_globals cal tag = Raise (NameError "term").
Proof. reflexivity. Qed.

Lemma getattr_rule_names :
  getattr "_thanksgiving" = Some (ARule _thanksgiving)
  ∧ getattr "_labor_day" = Some (ARule _labor_day)
  ∧ getattr "_mlk_day" = Some (ARule _mlk_day)
  ∧ getattr "_memorial_day" = Some (ARule _memorial_day)
  ∧ getattr "_independence_day" = Some (ARule _independence_day).
Proof. repeat split; reflexivity. Qed.

Section holiday.
Context (b : Rrule.byrules) (M lo hi : Z) (wd : option Z).
Context (gen : pyval → pyval → pyval → result (list date)).
Context (holiday : string) (shifted : bool).
Hypothesis Hreg : regularb b M lo hi wd = true.
Hypothesis HM : 1 ≤ M.
Hypothesis Hlo : 1 ≤ lo.
Hypothesis Hgen :
  ∀ ds c, gen (VDate ds) VNone (VInt c) = Ok (Rrule.iter (rule_of b ds c)).
Hypothesis Hattr :
  getattr ("_" +:+ replace " " "_" (lower holiday)) = Some (ARule gen).
Hypothesis Hshift : bool_decide (holiday ∈ shifted_holidays) = shifted.

(** The holiday of academic year [Y] is the date of the rule in
    calendar year [Y], or [Y + 1] for a shifted holiday. *)
Lemma get_holiday_rule (cal : BSUCalendar) (Y : Z) :
  let y := if shifted then Y + 1 else Y in
  1 ≤ y ≤ MAXYEAR →
  get_holiday cal holiday Y = Ok (occ b y)
  ∧ gen (VDate (Date y 1 1)) VNone (VInt 1) = Ok [occ b y].
Proof.
  intros y Hy. unfold get_holiday. cbv zeta.
  rewrite Hattr, Hshift. fold y.
  rewrite (mk_date_ok y 1 1) by (by apply valid_january_first).
  rewrite bind_Ok. unfold call_attribute.
  rewrite Hgen, (iter_from_january b M lo hi wd Hreg) by done.
  split; reflexivity.
Qed.
End holiday.

(** C4.  For an academic year [Y], [get_holiday] evaluates the rules of
    MLK Day, Memorial Day and Independence Day from the first of January
    of [Y + 1], and those of Thanksgiving and Labor Day from the first of
    January of [Y]; the date it returns is the first the rule yields from
    there and lies in that calendar year.  For 2020, MLK Day is the 18th
    of January 2021 and Labor Day the 7th of September 2020. *)
Theorem get_holiday_year_shift (cal : BSUCalendar) (Y : Z) :
  1 ≤ Y → Y + 1 ≤ MAXYEAR →
  (∀ name gen month,
     (name, gen, month) ∈ [("MLK Day", _mlk_day, 1);
                           ("Memorial Day", _memorial_day, 3);
                           ("Independence Day", _independence_day, 7)] →
     ∃ d, get_holiday cal name Y = Ok d
          ∧ gen (VDate (Date (Y + 1) 1 1)) VNone (VInt 1) = Ok [d]
          ∧ year d = Y + 1 ∧ PyDate.month d = month)
  ∧ (∀ name gen month,
       (name, gen, month) ∈ [("Thanksgiving", _thanksgiving, 11);
                             ("Labor Day", _labor_day, 9)] →
       ∃ d, get_holiday cal name Y = Ok d
            ∧ gen (VDate (Date Y 1 1)) VNone (VInt 1) = Ok [d]
            ∧ year d = Y ∧ PyDate.month d = month)
  ∧ get_holiday cal "MLK Day" 2020 = Ok (Date 2021 1 18)
  ∧ get_holiday cal "Labor Day" 2020 = Ok (Date 2020 9 7).
Proof.
  intros HY HY'.
  destruct getattr_rule_names as (Hth & Hld & Hmlk & Hmem & Hind).
  split; [|split; [|split]].
  - intros name gen month Hin.
    repeat (apply elem_of_cons in Hin as [[= -> -> ->]|Hin]);
      [| | |by apply elem_of_nil in Hin].
    + exists (occ mlk_day_by (Y + 1)).
      destruct (get_holiday_rule _ _ _ _ _ _mlk_day "MLK Day" true
                  mlk_day_regular ltac:(lia) ltac:(lia) mlk_day_eval
                  Hmlk eq_refl cal Y ltac:(lia)) as [-> ->].
      by rewrite (occ_year _ _ _ _ _ mlk_day_regular),
        (occ_month _ _ _ _ _ mlk_day_regular).
    + exists (occ memorial_day_by (Y + 1)).
      destruct (get_holiday_rule _ _ _ _ _ _memorial_day "Memorial Day" true
                  memorial_day_regular ltac:(lia) ltac:(lia)
                  memorial_day_eval Hmem eq_refl cal Y ltac:(lia))
        as [-> ->].
      by rewrite (occ_year _ _ _ _ _ memorial_day_regular),
        (occ_month _ _ _ _ _ memorial_day_regular).
    + exists (occ independence_day_by (Y + 1)).
      destruct (get_holiday_rule _ _ _ _ _ _independence_day
                  "Independence Day" true
                  independence_day_regular ltac:(lia) ltac:(lia)
                  independence_day_eval Hind eq_refl cal Y ltac:(lia))
        as [-> ->].
      by rewrite (occ_year _ _ _ _ _ independence_day_regular),
        (occ_month _ _ _ _ _ independence_day_regular).
  - intros name gen month Hin.
    repeat (apply elem_of_cons in Hin as [[= -> -> ->]|Hin]);
      [| |by apply elem_of_nil in Hin].
    + exists (occ thanksgiving_by Y).
      destruct (get_holiday_rule _ _ _ _ _ _thanksgiving "Thanksgiving" false
                  thanksgiving_regular ltac:(lia) ltac:(lia)
                  thanksgiving_eval Hth eq_refl cal Y ltac:(lia))
        as [-> ->].
      by rewrite (occ_year _ _ _ _ _ thanksgiving_regular),
        (occ_month _ _ _ _ _ thanksgiving_regular).
    + exists (occ labor_day_by Y).
      destruct (get_holiday_rule _ _ _ _ _ _labor_day "Labor Day" false
                  labor_day_regular ltac:(lia) ltac:(lia)
                  labor_day_eval Hld eq_refl cal Y ltac:(lia))
        as [-> ->].
      by rewrite (occ_year _ _ _ _ _ labor_day_regular),
        (occ_month _ _ _ _ _ labor_day_regular).
  - destruct (get_holiday_rule _ _ _ _ _ _mlk_day "MLK Day" true
                mlk_day_regular ltac:(lia) ltac:(lia) mlk_day_eval
                Hmlk eq_refl cal 2020 ltac:(unfold MAXYEAR; lia)) as [-> _].
    vm_compute. reflexivity.
  - destruct (get_holiday_rule _ _ _ _ _ _labor_day "Labor Day" false
                labor_day_regular ltac:(lia) ltac:(lia) labor_day_eval
                Hld eq_refl cal 2020 ltac:(unfold MAXYEAR; lia)) as [-> _].
    vm_compute. reflexivity.
Qed.

Lemma get_holiday_year_shift_witness :
  ∃ cal,
    __init__ 2026 2012 (Some 2022) = Ok cal
    ∧ get_holiday cal "MLK Day" 2020 = Ok (Date 2021 1 18)
    ∧ get_holiday cal "Labor Day" 2020 = Ok (Date 2020 9 7).
Proof.
  destruct (init_spec 2026 2012 2022) as (cal & Hinit & _);
    [unfold MAXYEAR; lia..|].
  exists cal. split; [exact Hinit|].
  apply (get_holiday_year_shift cal 2020); unfold MAXYEAR; lia.
Defined.

(** ** The dates of a year *)

(** Every year of the range has its dictionary, the one [init_year]
    builds from the dates of the rules in that year. *)
Lemma calendar_year (now_year sy ey Y : Z) :
  1 ≤ sy ≤ MAXYEAR → 1 ≤ ey ≤ MAXYEAR → sy ≤ Y < ey →
  ∃ cal, __init__ now_year sy (Some ey) = Ok cal
         ∧ dates cal !! Y = Some (entry Y).
Proof.
  intros Hsy Hey HY.
  destruct (init_spec now_year sy ey Hsy Hey) as (cal & Hinit & Hcal).
  exists cal. split; [done|].
  rewrite (calendar_dates_lookup sy ey) by done. by rewrite decide_True.
Qed.

Lemma sub_shift_shift (d : date) (j k : Z) :
  sub (shift d k) (shift d j) = Timedelta (k - j).
Proof. unfold sub. rewrite !toordinal_shift. f_equal. lia. Qed.

Lemma sub_shift (d : date) (k : Z) : sub (shift d k) d = Timedelta k.
Proof. unfold sub. rewrite toordinal_shift. f_equal. lia. Qed.

(** C5.  In every academic year of the range, the fall term and the
    spring term each end 116 days after they start. *)
Theorem term_length_116_days (now_year sy ey Y : Z) :
  1 ≤ sy ≤ MAXYEAR → 1 ≤ ey ≤ MAXYEAR → sy ≤ Y < ey →
  ∃ cal yd f_start f_end sp_start sp_end,
    __init__ now_year sy (Some ey) = Ok cal
    ∧ dates cal !! Y = Some yd
    ∧ yd !! "Fall Term Start" = Some f_start
    ∧ yd !! "Fall Term End" = Some f_end
    ∧ yd !! "Spring Term Start" = Some sp_start
    ∧ yd !! "Spring Term End" = Some sp_end
    ∧ sub f_end f_start = timedelta_days 116
    ∧ sub sp_end sp_start = timedelta_days 116.
Proof.
  intros Hsy Hey HY.
  destruct (calendar_year now_year sy ey Y Hsy Hey HY) as (cal & Hinit & Hd).
  exists cal, (entry Y). do 4 eexists.
  split; [done|]. split; [done|]. unfold entry.
  rewrite entry_fall_term_start, entry_fall_term_end,
    entry_spring_term_start, entry_spring_term_end.
  repeat (split; [reflexivity|]).
  split; [apply sub_shift | apply sub_shift_shift].
Qed.

Lemma term_length_116_days_witness :
  ∃ cal yd f_start f_end sp_start sp_end,
    __init__ 2026 2012 (Some 2022) = Ok cal
    ∧ dates cal !! 2015 = Some yd
    ∧ yd !! "Fall Term Start" = Some f_start
    ∧ yd !! "Fall Term End" = Some f_end
    ∧ yd !! "Spring Term Start" = Some sp_start
    ∧ yd !! "Spring Term End" = Some sp_end
    ∧ sub f_end f_start = timedelta_days 116
    ∧ sub sp_end sp_start = timedelta_days 116.
Proof.
  apply (term_length_116_days 2026 2012 2022 2015); unfold MAXYEAR; lia.
Defined.

(** C6.  The spring break starts nine weeks after the spring term in
    academic year 2013, and eight weeks after it in every other year of
    the range. *)
Theorem spring_break_offset (now_year sy ey Y : Z) :
  1 ≤ sy ≤ MAXYEAR → 1 ≤ ey ≤ MAXYEAR → sy ≤ Y < ey →
  ∃ cal yd sp_start sp_break_start,
    __init__ now_year sy (Some ey) = Ok cal
    ∧ dates cal !! Y = Some yd
    ∧ yd !! "Spring Term Start" = Some sp_start
    ∧ yd !! "Spring Break Start" = Some sp_break_start
    ∧ (Y = 2013 → sub sp_break_start sp_start = timedelta_weeks 9)
    ∧ (Y ≠ 2013 → sub sp_break_start sp_start = timedelta_weeks 8).
Proof.
  intros Hsy Hey HY.
  destruct (calendar_year now_year sy ey Y Hsy Hey HY) as (cal & Hinit & Hd).
  exists cal, (entry Y). do 2 eexists.
  split; [done|]. split; [done|]. unfold entry.
  rewrite entry_spring_term_start, entry_spring_break_start.
  repeat (split; [reflexivity|]).
  rewrite sub_shift_shift. split.
  - intros ->. reflexivity.
  - intros Hne. apply Z.eqb_neq in Hne. rewrite Hne. reflexivity.
Qed.

Lemma spring_break_offset_witness :
  ∃ cal yd sp_start sp_break_start,
    __init__ 2026 2012 (Some 2022) = Ok cal
    ∧ dates cal !! 2013 = Some yd
    ∧ yd !! "Spring Term Start" = Some sp_start
    ∧ yd !! "Spring Break Start" = Some sp_break_start
    ∧ (2013 = 2013 → sub sp_break_start sp_start = timedelta_weeks 9)
    ∧ (2013 ≠ 2013 → sub sp_break_start sp_start = timedelta_weeks 8).
Proof.
  apply (spring_break_offset 2026 2012 2022 2013); unfold MAXYEAR; lia.
Defined.

(** ** [_irule] *)

Lemma bind_raise_inv {A B} (m : result A) (k : A → result B) (e : exn) :
  (m ≫= k) = Raise e → m = Raise e ∨ ∃ a, m = Ok a ∧ k a = Raise e.
Proof. destruct m as [a|e']; simpl; [eauto|]. intros [= ->]. by left. Qed.

Lemma opt_date_raises (v : option pyval) (e : exn) :
  Rrule.opt_date v = Raise e → e = Unmodelled.
Proof. destruct v as [[]|]; simpl; congruence. Qed.

Lemma opt_int_raises (v : option pyval) (e : exn) :
  Rrule.opt_int v = Raise e → e = Unmodelled.
Proof. destruct v as [[]|]; simpl; congruence. Qed.

(** The modelled constructor raises nothing of its own: a request it
    does not accept is one outside the modelled fragment. *)
Lemma rrule_new_raises (freq : pyval) (kwargs : gmap string pyval) (e : exn) :
  Rrule.new freq kwargs = Raise e → e = Unmodelled.
Proof.
  unfold Rrule.new. intros H.
  repeat match type of H with
  | Raise _ = Raise _ => by injection H
  | Ok _ = Raise _ => discriminate H
  | Rrule.opt_date _ = Raise _ => by apply opt_date_raises in H
  | Rrule.opt_int _ = Raise _ => by apply opt_int_raises in H
  | (_ ≫= _) = Raise _ =>
      apply bind_raise_inv in H as [H|(? & _ & H)]
  | (if ?c then _ else _) = Raise _ => destruct c
  | (let '(_, _) := ?x in _) = Raise _ => destruct x
  | match ?x with _ => _ end = Raise _ => destruct x
  end.
Qed.

(** C7.  A request with both a count and an end date raises nothing:
    [_irule] tests for it only where neither is given, so the message
    of that test is never raised, and the rule is built.  Labor Day
    from the first of August 2020, with a count of one and the first of
    August 2021 for end date, yields the 7th of September 2020. *)
Theorem irule_accepts_count_and_until :
  _labor_day (VDate (Date 2020 8 1)) (VDate (Date 2021 8 1)) (VInt 1)
  = Ok [Date 2020 9 7]
  ∧ ∀ kwargs,
      _irule kwargs
      ≠ Raise (ValueError "Specify either count or until, not both").
Proof.
  split; [vm_compute; reflexivity|].
  intros kwargs. unfold _irule.
  destruct (has_key "freq" kwargs); simpl; [|discriminate].
  destruct (filter _ kwargs !! "freq") as [freq|]; [|discriminate].
  set (kw := delete "freq" (filter _ kwargs)).
  destruct (has_key "until" kw), (has_key "count" kw); simpl;
    try discriminate.
  all: destruct (Rrule.new freq kw) as [r|e] eqn:Hnew; simpl;
    [discriminate|].
  all: apply rrule_new_raises in Hnew as ->; discriminate.
Qed.

(** ** [date_in_term], continued *)

(** C8.  [date_in_term] ignores the semester of the term code: two term
    codes of one year give the same date or the same error. *)
Theorem date_in_term_ignores_semester (cal : BSUCalendar) (y s1 s2 : Z)
    (field : string) :
  semester_code s1 → semester_code s2 →
  date_in_term cal (y * 100 + s1) field
  = date_in_term cal (y * 100 + s2) field.
Proof.
  intros H1 H2. unfold date_in_term, year_of_term.
  rewrite !round_hundreds_semester by (unfold semester_code in *; lia).
  reflexivity.
Qed.

Lemma date_in_term_ignores_semester_witness :
  ∃ cal,
    __init__ 2026 2012 (Some 2022) = Ok cal
    ∧ date_in_term cal (2020 * 100 + 10) "Fall Term Start"
      = date_in_term cal (2020 * 100 + 30) "Fall Term Start".
Proof.
  destruct (init_spec 2026 2012 2022) as (cal & Hinit & _);
    [unfold MAXYEAR; lia..|].
  exists cal. split; [exact Hinit|].
  apply (date_in_term_ignores_semester cal 2020 10 30 "Fall Term Start");
    unfold semester_code; lia.
Defined.

Lemma occ_independence_day (y : Z) : occ independence_day_by y = Date y 7 4.
Proof.
  pose proof (occ_year _ _ _ _ _ independence_day_regular y) as Hy.
  pose proof (occ_month _ _ _ _ _ independence_day_regular y) as Hm.
  pose proof (occ_day _ _ _ _ _ independence_day_regular y) as Hd.
  destruct (occ independence_day_by y) as [y' m d]. simpl in *.
  f_equal; lia.
Qed.

(** C9.  In every academic year [Y] of the range the fourth of July of
    [Y + 1] is stored under the key ["Independenc Day"], and there is no
    key ["Independence Day"]: for every term of the year, [date_in_term]
    raises [KeyError] for the second and returns the date for the
    first. *)
Theorem independence_day_misspelled_key (now_year sy ey Y s : Z) :
  1 ≤ sy ≤ MAXYEAR → 1 ≤ ey ≤ MAXYEAR → sy ≤ Y < ey → semester_code s →
  ∃ cal yd,
    __init__ now_year sy (Some ey) = Ok cal
    ∧ dates cal !! Y = Some yd
    ∧ yd !! "Independenc Day" = Some (Date (Y + 1) 7 4)
    ∧ yd !! "Independence Day" = None
    ∧ date_in_term cal (Y * 100 + s) "Independence Day" = Raise KeyError
    ∧ date_in_term cal (Y * 100 + s) "Independenc Day"
      = Ok (Date (Y + 1) 7 4).
Proof.
  intros Hsy Hey HY Hs.
  destruct (calendar_year now_year sy ey Y Hsy Hey HY) as (cal & Hinit & Hd).
  exists cal, (entry Y).
  split; [done|]. split; [done|].
  assert (Z.abs Y < 2 ^ 53) as HY'.
  { unfold MAXYEAR in *. assert (2 ^ 53 = 9007199254740992) as -> by done.
    lia. }
  rewrite !(date_in_term_stored cal Y s _ (entry Y)) by done.
  unfold getitem, entry.
  rewrite entry_independenc_day, entry_independence_day,
    occ_independence_day.
  done.
Qed.

Lemma independence_day_misspelled_key_witness :
  ∃ cal yd,
    __init__ 2026 2012 (Some 2022) = Ok cal
    ∧ dates cal !! 2020 = Some yd
    ∧ yd !! "Independenc Day" = Some (Date (2020 + 1) 7 4)
    ∧ yd !! "Independence Day" = None
    ∧ date_in_term cal (2020 * 100 + 30) "Independence Day" = Raise KeyError
    ∧ date_in_term cal (2020 * 100 + 30) "Independenc Day"
      = Ok (Date (2020 + 1) 7 4).
Proof.
  apply (independence_day_misspelled_key 2026 2012 2022 2020 30);
    unfold MAXYEAR, semester_code; lia.
Defined.

(** C10.  In every academic year of the range the stored end of the
    summer term is earlier than its stored start, by 58 days. *)
Theorem summer_term_end_before_start (now_year sy ey Y : Z) :
  1 ≤ sy ≤ MAXYEAR → 1 ≤ ey ≤ MAXYEAR → sy ≤ Y < ey →
  ∃ cal yd sm_start sm_end,
    __init__ now_year sy (Some ey) = Ok cal
    ∧ dates cal !! Y = Some yd
    ∧ yd !! "Summer Term Start" = Some sm_start
    ∧ yd !! "Summer Term End" = Some sm_end
    ∧ ltb sm_end sm_start = true
    ∧ sub sm_start sm_end = timedelta_days 58.
Proof.
  intros Hsy Hey HY.
  destruct (calendar_year now_year sy ey Y Hsy Hey HY) as (cal & Hinit & Hd).
  exists cal, (entry Y). do 2 eexists.
  split; [done|]. split; [done|]. unfold entry.
  rewrite entry_summer_term_start, entry_summer_term_end.
  repeat (split; [reflexivity|]).
  split; [|apply sub_shift_shift].
  assert (∀ k, 0 ≤ k ≤ 270 →
            1 ≤ toordinal (occ fall_start_by Y) + k ≤ MAXORDINAL) as Hb.
  { intros k Hk.
    apply (occ_toordinal _ _ _ _ _ fall_start_regular);
      simpl; unfold MAXYEAR in *; lia. }
  apply ltb_toordinal.
  - apply ord2ymd_valid, Hb. lia.
  - apply ord2ymd_valid, Hb. lia.
  - rewrite !toordinal_shift. lia.
Qed.

Lemma summer_term_end_before_start_witness :
  ∃ cal yd sm_start sm_end,
    __init__ 2026 2012 (Some 2022) = Ok cal
    ∧ dates cal !! 2020 = Some yd
    ∧ yd !! "Summer Term Start" = Some sm_start
    ∧ yd !! "Summer Term End" = Some sm_end
    ∧ ltb sm_end sm_start = true
    ∧ sub sm_start sm_end = timedelta_days 58.
Proof.
  apply (summer_term_end_before_start 2026 2012 2022 2020);
    unfold MAXYEAR; lia.
Defined.

(** ** The rule methods, year by year *)

Lemma day_of_year_valid (y i : Z) :
  1 ≤ y ≤ MAXYEAR → 0 ≤ i < days_in_year y → valid (day_of_year y i).
Proof.
  intros Hy Hi. unfold day_of_year.
  pose proof (month_day_spec (is_leap y) i Hi) as H.
  destruct (month_day (is_leap y) i) as [m d].
  unfold valid, days_in_month, MINYEAR. simpl.
  split; [lia|]. split; [lia|].
  destruct (Z.eqb_spec m 2); subst; destruct (is_leap y); simpl in *; lia.
Qed.

(** Closes a conjunction whose parts are hypotheses or trivial
    equations. *)
Ltac split_assumptions :=
  repeat match goal with
         | |- _ ∧ _ => split; [first [assumption | reflexivity]|]
         end;
  first [assumption | reflexivity].

Section rule_method.
Context (b : Rrule.byrules) (M lo hi : Z) (wd : option Z).
Context (gen : pyval → pyval → pyval → result (list date)).
Hypothesis Hreg : regularb b M lo hi wd = true.
Hypothesis HM : 1 ≤ M.
Hypothesis Hlo : 1 ≤ lo.
Hypothesis Hgen :
  ∀ ds c, gen (VDate ds) VNone (VInt c) = Ok (Rrule.iter (rule_of b ds c)).

Lemma occ_valid (y : Z) : 1 ≤ y ≤ MAXYEAR → valid (occ b y).
Proof.
  intros Hy.
  destruct (occ_spec b M lo hi wd Hreg y) as (Hone & _).
  rewrite year_dates_days in Hone.
  destruct (Rrule.year_dayset b (is_leap y) (weekday (Date y 1 1)))
    as [|i [|]] eqn:Hset; try discriminate.
  injection Hone as <-.
  apply day_of_year_valid; [done|].
  rewrite days_in_year_eq. apply (year_dayset_range b _ (weekday (Date y 1 1))).
  rewrite Hset. by left.
Qed.

(** Started on the first of January of year [y] with a count of one, a
    rule method yields one date: the date of its rule in year [y]. *)
Lemma rule_from_january (y : Z) :
  1 ≤ y ≤ MAXYEAR →
  ∃ d, gen (VDate (Date y 1 1)) VNone (VInt 1) = Ok [d]
       ∧ valid d ∧ year d = y ∧ month d = M ∧ lo ≤ day d ≤ hi
       ∧ (∀ w, wd = Some w → weekday d = w).
Proof.
  intros Hy. exists (occ b y).
  rewrite Hgen, (iter_from_january b M lo hi wd Hreg) by done.
  split; [done|]. split; [by apply occ_valid|].
  destruct (occ_spec b M lo hi wd Hreg y) as (_ & ? & ? & ? & ?). done.
Qed.

(** Started on the first of August of [sy] with a count of [n], it
    yields [n] dates, one a year, from [sy] on when the month of the rule
    is August or later and from [sy + 1] on otherwise. *)
Lemma rule_from_august (sy n : Z) :
  1 ≤ sy → 0 ≤ n → sy + n ≤ MAXYEAR →
  ∃ l, gen (VDate (Date sy 8 1)) VNone (VInt n) = Ok l
       ∧ Z.of_nat (List.length l) = n
       ∧ ∀ (k : nat) d, l !! k = Some d →
           year d = sy + Z.of_nat k + (if M <? 8 then 1 else 0)
           ∧ month d = M ∧ lo ≤ day d ≤ hi
           ∧ (∀ w, wd = Some w → weekday d = w).
Proof.
  intros Hsy Hn Hmax.
  exists (occ b <$> seqZ (sy + (if M <? 8 then 1 else 0)) n).
  rewrite Hgen, (iter_from_august b M lo hi wd Hreg) by done.
  split; [done|]. split.
  - rewrite length_fmap, length_seqZ. lia.
  - intros k d Hk. apply list_lookup_fmap_Some in Hk as (y & -> & Hy).
    apply lookup_seqZ in Hy as [-> _].
    destruct (occ_spec b M lo hi wd Hreg
                (sy + (if M <? 8 then 1 else 0) + Z.of_nat k))
      as (_ & Hyear & ? & ? & ?).
    rewrite Hyear. split; [lia|done].
Qed.
End rule_method.

(** X1.  [_thanksgiving] yields the fourth Thursday of November: in
    every year from 1 to 9999, a Thursday of November on a day of the
    month from 22 to 28. *)
Theorem thanksgiving_fourth_thursday (y : Z) :
  1 ≤ y ≤ MAXYEAR →
  ∃ d, _thanksgiving (VDate (Date y 1 1)) VNone (VInt 1) = Ok [d]
       ∧ valid d ∧ year d = y ∧ month d = 11
       ∧ weekday d = Rrule.TH ∧ 22 ≤ day d ≤ 28.
Proof.
  intros Hy.
  destruct (rule_from_january thanksgiving_by 11 22 28 (Some Rrule.TH)
              _thanksgiving thanksgiving_regular
              ltac:(lia) ltac:(lia) thanksgiving_eval y Hy)
    as (d & ? & ? & ? & ? & ? & Hw).
  exists d. rewrite (Hw _ eq_refl). split_assumptions.
Qed.

Lemma thanksgiving_fourth_thursday_witness :
  ∃ d, _thanksgiving (VDate (Date 2023 1 1)) VNone (VInt 1) = Ok [d]
       ∧ valid d ∧ year d = 2023 ∧ month d = 11
       ∧ weekday d = Rrule.TH ∧ 22 ≤ day d ≤ 28.
Proof. apply (thanksgiving_fourth_thursday 2023); unfold MAXYEAR; lia. Defined.

(** X2.  [_labor_day] yields the first Monday of September: a Monday on
    a day of the month from 1 to 7. *)
Theorem labor_day_first_monday (y : Z) :
  1 ≤ y ≤ MAXYEAR →
  ∃ d, _labor_day (VDate (Date y 1 1)) VNone (VInt 1) = Ok [d]
       ∧ valid d ∧ year d = y ∧ month d = 9
       ∧ weekday d = Rrule.MO ∧ 1 ≤ day d ≤ 7.
Proof.
  intros Hy.
  destruct (rule_from_january labor_day_by 9 1 7 (Some Rrule.MO)
              _labor_day labor_day_regular
              ltac:(lia) ltac:(lia) labor_day_eval y Hy)
    as (d & ? & ? & ? & ? & ? & Hw).
  exists d. rewrite (Hw _ eq_refl). split_assumptions.
Qed.

Lemma labor_day_first_monday_witness :
  ∃ d, _labor_day (VDate (Date 2023 1 1)) VNone (VInt 1) = Ok [d]
       ∧ valid d ∧ year d = 2023 ∧ month d = 9
       ∧ weekday d = Rrule.MO ∧ 1 ≤ day d ≤ 7.
Proof. apply (labor_day_first_monday 2023); unfold MAXYEAR; lia. Defined.

(** X3.  [_mlk_day] yields the third Monday of January: a Monday on a
    day of the month from 15 to 21. *)
Theorem mlk_day_third_monday (y : Z) :
  1 ≤ y ≤ MAXYEAR →
  ∃ d, _mlk_day (VDate (Date y 1 1)) VNone (VInt 1) = Ok [d]
       ∧ valid d ∧ year d = y ∧ month d = 1
       ∧ weekday d = Rrule.MO ∧ 15 ≤ day d ≤ 21.
Proof.
  intros Hy.
  destruct (rule_from_january mlk_day_by 1 15 21 (Some Rrule.MO)
              _mlk_day mlk_day_regular
              ltac:(lia) ltac:(lia) mlk_day_eval y Hy)
    as (d & ? & ? & ? & ? & ? & Hw).
  exists d. rewrite (Hw _ eq_refl). split_assumptions.
Qed.

Lemma mlk_day_third_monday_witness :
  ∃ d, _mlk_day (VDate (Date 2023 1 1)) VNone (VInt 1) = Ok [d]
       ∧ valid d ∧ year d = 2023 ∧ month d = 1
       ∧ weekday d = Rrule.MO ∧ 15 ≤ day d ≤ 21.
Proof. apply (mlk_day_third_monday 2023); unfold MAXYEAR; lia. Defined.

(** X4.  [_memorial_day] yields the last Monday of March: a Monday on a
    day of the month from 25 to 31, so that no Monday of March follows. *)
Theorem memorial_day_last_monday_of_march (y : Z) :
  1 ≤ y ≤ MAXYEAR →
  ∃ d, _memorial_day (VDate (Date y 1 1)) VNone (VInt 1) = Ok [d]
       ∧ valid d ∧ year d = y ∧ month d = 3
       ∧ weekday d = Rrule.MO ∧ 25 ≤ day d ≤ 31.
Proof.
  intros Hy.
  destruct (rule_from_january memorial_day_by 3 25 31 (Some Rrule.MO)
              _memorial_day memorial_day_regular
              ltac:(lia) ltac:(lia) memorial_day_eval y Hy)
    as (d & ? & ? & ? & ? & ? & Hw).
  exists d. rewrite (Hw _ eq_refl). split_assumptions.
Qed.

Lemma memorial_day_last_monday_of_march_witness :
  ∃ d, _memorial_day (VDate (Date 2023 1 1)) VNone (VInt 1) = Ok [d]
       ∧ valid d ∧ year d = 2023 ∧ month d = 3
       ∧ weekday d = Rrule.MO ∧ 25 ≤ day d ≤ 31.
Proof.
  apply (memorial_day_last_monday_of_march 2023); unfold MAXYEAR; lia.
Defined.

(** X5.  [_independence_day] yields the fourth of July. *)
Theorem independence_day_fourth_of_july (y : Z) :
  1 ≤ y ≤ MAXYEAR →
  _independence_day (VDate (Date y 1 1)) VNone (VInt 1) = Ok [Date y 7 4].
Proof.
  intros Hy.
  rewrite independence_day_eval,
    (iter_from_january _ _ _ _ _ independence_day_regular) by lia.
  by rewrite occ_independence_day.
Qed.

Lemma independence_day_fourth_of_july_witness :
  _independence_day (VDate (Date 2023 1 1)) VNone (VInt 1)
  = Ok [Date 2023 7 4].
Proof.
  apply (independence_day_fourth_of_july 2023); unfold MAXYEAR; lia.
Defined.

(** X6.  [_fall_start] yields the second-to-last Monday of August: a
    Monday on a day of the month from 18 to 24, so that one Monday of
    August follows and no second one. *)
Theorem fall_start_second_to_last_monday (y : Z) :
  1 ≤ y ≤ MAXYEAR →
  ∃ d, _fall_start (VDate (Date y 1 1)) VNone (VInt 1) = Ok [d]
       ∧ valid d ∧ year d = y ∧ month d = 8
       ∧ weekday d = Rrule.MO ∧ 18 ≤ day d ≤ 24.
Proof.
  intros Hy.
  destruct (rule_from_january fall_start_by 8 18 24 (Some Rrule.MO)
              _fall_start fall_start_regular
              ltac:(lia) ltac:(lia) fall_start_eval y Hy)
    as (d & ? & ? & ? & ? & ? & Hw).
  exists d. rewrite (Hw _ eq_refl). split_assumptions.
Qed.

Lemma fall_start_second_to_last_monday_witness :
  ∃ d, _fall_start (VDate (Date 2023 1 1)) VNone (VInt 1) = Ok [d]
       ∧ valid d ∧ year d = 2023 ∧ month d = 8
       ∧ weekday d = Rrule.MO ∧ 18 ≤ day d ≤ 24.
Proof.
  apply (fall_start_second_to_last_monday 2023); unfold MAXYEAR; lia.
Defined.

(** X7.  [_fall_break_start] yields the second-to-last Monday of
    October: a Monday on a day of the month from 18 to 24. *)
Theorem fall_break_start_second_to_last_monday (y : Z) :
  1 ≤ y ≤ MAXYEAR →
  ∃ d, _fall_break_start (VDate (Date y 1 1)) VNone (VInt 1) = Ok [d]
       ∧ valid d ∧ year d = y ∧ month d = 10
       ∧ weekday d = Rrule.MO ∧ 18 ≤ day d ≤ 24.
Proof.
  intros Hy.
  destruct (rule_from_january fall_break_start_by 10 18 24 (Some Rrule.MO)
              _fall_break_start fall_break_start_regular
              ltac:(lia) ltac:(lia) fall_break_start_eval y Hy)
    as (d & ? & ? & ? & ? & ? & Hw).
  exists d. rewrite (Hw _ eq_refl). split_assumptions.
Qed.

Lemma fall_break_start_second_to_last_monday_witness :
  ∃ d, _fall_break_start (VDate (Date 2023 1 1)) VNone (VInt 1) = Ok [d]
       ∧ valid d ∧ year d = 2023 ∧ month d = 10
       ∧ weekday d = Rrule.MO ∧ 18 ≤ day d ≤ 24.
Proof.
  apply (fall_break_start_second_to_last_monday 2023); unfold MAXYEAR; lia.
Defined.

(** X8.  [_spring_withdraw_deadline] yields the third Monday of March:
    a Monday on a day of the month from 15 to 21. *)
Theorem spring_withdraw_deadline_third_monday (y : Z) :
  1 ≤ y ≤ MAXYEAR →
  ∃ d, _spring_withdraw_deadline (VDate (Date y 1 1)) VNone (VInt 1) = Ok [d]
       ∧ valid d ∧ year d = y ∧ month d = 3
       ∧ weekday d = Rrule.MO ∧ 15 ≤ day d ≤ 21.
Proof.
  intros Hy.
  destruct (rule_from_january spring_withdraw_by 3 15 21 (Some Rrule.MO)
              _spring_withdraw_deadline spring_withdraw_regular
              ltac:(lia) ltac:(lia) spring_withdraw_eval y Hy)
    as (d & ? & ? & ? & ? & ? & Hw).
  exists d. rewrite (Hw _ eq_refl). split_assumptions.
Qed.

Lemma spring_withdraw_deadline_third_monday_witness :
  ∃ d, _spring_withdraw_deadline (VDate (Date 2023 1 1)) VNone (VInt 1)
       = Ok [d]
       ∧ valid d ∧ year d = 2023 ∧ month d = 3
       ∧ weekday d = Rrule.MO ∧ 15 ≤ day d ≤ 21.
Proof.
  apply (spring_withdraw_deadline_third_monday 2023); unfold MAXYEAR; lia.
Defined.

(** X9.  As [__init__] calls them, from the first of August of [sy] and
    with a count of [n], every rule method yields exactly [n] dates, one
    in each of [n] successive years, all in the month of its rule; the
    first year is [sy] for a month from August on and [sy + 1] for an
    earlier month. *)
Theorem rule_methods_from_august (sy n : Z) :
  1 ≤ sy → 0 ≤ n → sy + n ≤ MAXYEAR →
  ∀ gen M, (gen, M) ∈ rule_methods →
    ∃ l, gen (VDate (Date sy 8 1)) VNone (VInt n) = Ok l
         ∧ Z.of_nat (List.length l) = n
         ∧ ∀ (k : nat) d, l !! k = Some d →
             year d = sy + Z.of_nat k + (if M <? 8 then 1 else 0)
             ∧ month d = M.
Proof.
  intros Hsy Hn Hmax gen M Hin. unfold rule_methods in Hin.
  assert (∀ b lo hi wd,
    regularb b M lo hi wd = true → 1 ≤ lo →
    (∀ ds c, gen (VDate ds) VNone (VInt c)
             = Ok (Rrule.iter (rule_of b ds c))) →
    ∃ l, gen (VDate (Date sy 8 1)) VNone (VInt n) = Ok l
         ∧ Z.of_nat (List.length l) = n
         ∧ ∀ (k : nat) d, l !! k = Some d →
             year d = sy + Z.of_nat k + (if M <? 8 then 1 else 0)
             ∧ month d = M) as Hrule.
  { intros b lo hi wd Hreg Hlo Hgen.
    destruct (rule_from_august b M lo hi wd gen Hreg Hlo Hgen sy n
                Hsy Hn Hmax) as (l & Hl & Hlen & Hk).
    exists l. split; [exact Hl|]. split; [exact Hlen|].
    intros k d Hd. destruct (Hk k d Hd) as (? & ? & _). by split. }
  repeat (apply elem_of_cons in Hin as [[= -> ->]|Hin]).
  - apply (Hrule _ _ _ _ thanksgiving_regular ltac:(lia) thanksgiving_eval).
  - apply (Hrule _ _ _ _ labor_day_regular ltac:(lia) labor_day_eval).
  - apply (Hrule _ _ _ _ mlk_day_regular ltac:(lia) mlk_day_eval).
  - apply (Hrule _ _ _ _ memorial_day_regular ltac:(lia) memorial_day_eval).
  - apply (Hrule _ _ _ _ independence_day_regular ltac:(lia)
             independence_day_eval).
  - apply (Hrule _ _ _ _ fall_start_regular ltac:(lia) fall_start_eval).
  - apply (Hrule _ _ _ _ fall_break_start_regular ltac:(lia)
             fall_break_start_eval).
  - apply (Hrule _ _ _ _ spring_withdraw_regular ltac:(lia)
             spring_withdraw_eval).
  - by apply elem_of_nil in Hin.
Qed.

Lemma rule_methods_from_august_witness :
  ∃ l, _mlk_day (VDate (Date 2012 8 1)) VNone (VInt 3) = Ok l
       ∧ Z.of_nat (List.length l) = 3
       ∧ ∀ (k : nat) d, l !! k = Some d →
           year d = 2012 + Z.of_nat k + (if 1 <? 8 then 1 else 0)
           ∧ month d = 1.
Proof.
  apply (rule_methods_from_august 2012 3);
    [lia | lia | unfold MAXYEAR; lia |].
  unfold rule_methods. do 2 right. left.
Defined.

(** ** [_irule]: the checks of the keyword arguments *)

Lemma has_key_true (k : string) (kwargs : gmap string pyval) (v : pyval) :
  kwargs !! k = Some v → has_key k kwargs = true.
Proof. intros H. unfold has_key. apply bool_decide_eq_true. by exists v. Qed.

Lemma has_key_false (k : string) (kwargs : gmap string pyval) :
  kwargs !! k = None → has_key k kwargs = false.
Proof.
  intros H. unfold has_key. apply bool_decide_eq_false.
  rewrite H. by intros [? ?].
Qed.

Lemma filter_not_given (k : string) (kwargs : gmap string pyval) :
  not_given k kwargs →
  filter (λ kv : string * pyval, kv.2 ≠ VNone) kwargs !! k = None.
Proof.
  intros [H|H]; apply map_lookup_filter_None; [by left|].
  right. intros v Hv. rewrite H in Hv. injection Hv as <-. simpl. tauto.
Qed.

(** X10.  With a frequency and with neither a count nor an end date
    (each left out or [None]), [_irule] raises [ValueError]:
    "Must specify either count or until." *)
Theorem irule_requires_count_or_until (kwargs : gmap string pyval)
    (freq : pyval) :
  kwargs !! "freq" = Some freq → freq ≠ VNone →
  not_given "until" kwargs → not_given "count" kwargs →
  _irule kwargs = Raise (ValueError "Must specify either count or until.").
Proof.
  intros Hfreq Hne Hu Hc. unfold _irule.
  rewrite (has_key_true _ _ _ Hfreq). cbn [negb].
  assert (filter (λ kv : string * pyval, kv.2 ≠ VNone) kwargs !! "freq"
          = Some freq) as ->
    by (by apply map_lookup_filter_Some).
  rewrite !has_key_false; [reflexivity|..];
    rewrite lookup_delete_ne by discriminate; by apply filter_not_given.
Qed.

Lemma irule_requires_count_or_until_witness :
  _labor_day (VDate (Date 2020 8 1)) VNone VNone
  = Raise (ValueError "Must specify either count or until.").
Proof.
  apply (irule_requires_count_or_until _ (VInt Rrule.YEARLY));
    [reflexivity | discriminate | right; reflexivity | right; reflexivity].
Defined.

(** X11.  Without the keyword [freq], [_irule] fails its assertion; with
    [freq=None] the assertion passes, the [None] is filtered out, and
    taking [freq] from the dictionary raises [KeyError]. *)
Theorem irule_requires_freq (kwargs : gmap string pyval) :
  (kwargs !! "freq" = None →
   _irule kwargs = Raise (AssertionError "Must have freq argument"))
  ∧ (kwargs !! "freq" = Some VNone → _irule kwargs = Raise KeyError).
Proof.
  split; intros Hfreq; unfold _irule.
  - by rewrite (has_key_false _ _ Hfreq).
  - rewrite (has_key_true _ _ _ Hfreq). cbn [negb].
    rewrite filter_not_given by (by right). reflexivity.
Qed.

Lemma irule_requires_freq_witness :
  _irule (list_to_map [("dtstart", VDate (Date 2020 1 1)); ("count", VInt 1)])
  = Raise (AssertionError "Must have freq argument")
  ∧ _irule (list_to_map [("freq", VNone); ("count", VInt 1)])
    = Raise KeyError.
Proof.
  split.
  - apply (irule_requires_freq
             (list_to_map [("dtstart", VDate (Date 2020 1 1));
                           ("count", VInt 1)])). reflexivity.
  - apply (irule_requires_freq
             (list_to_map [("freq", VNone); ("count", VInt 1)])). reflexivity.
Defined.

(** ** [_add_days] *)

Lemma weekday_shift (d : date) (k : Z) :
  weekday (shift d k) = (weekday d + k) mod 7.
Proof.
  unfold weekday. rewrite toordinal_shift, Z.add_mod_idemp_l by lia.
  f_equal. lia.
Qed.

Lemma add_days_int (d : date) (n : Z) :
  _add_days d (DInt n)
  = if (0 <? toordinal d + n) && (toordinal d + n <=? MAXORDINAL)
    then Ok (shift d n) else Raise OverflowError.
Proof. reflexivity. Qed.

(** X12.  [_add_days(d, n)] for an [int] [n] returns the date [n] days
    from [d] when that date exists: a valid date whose ordinal is that
    of [d] plus [n], so that the difference to [d] is [n] days and the
    weekday moves by [n] modulo 7.  It raises [OverflowError] when the
    date would fall before year 1 or after year 9999. *)
Theorem add_days_ordinal (d : date) (n : Z) :
  (1 ≤ toordinal d + n ≤ MAXORDINAL →
   ∃ d', _add_days d (DInt n) = Ok d' ∧ valid d'
         ∧ toordinal d' = toordinal d + n
         ∧ sub d' d = timedelta_days n
         ∧ weekday d' = (weekday d + n) mod 7)
  ∧ (¬ (1 ≤ toordinal d + n ≤ MAXORDINAL) →
     _add_days d (DInt n) = Raise OverflowError).
Proof.
  rewrite add_days_int. split; intros H.
  - exists (shift d n).
    destruct (Z.ltb_spec 0 (toordinal d + n)); [|lia].
    destruct (Z.leb_spec (toordinal d + n) MAXORDINAL); [|lia].
    split; [reflexivity|]. split; [by apply ord2ymd_valid|].
    split; [apply toordinal_shift|].
    split; [apply sub_shift | apply weekday_shift].
  - destruct (Z.ltb_spec 0 (toordinal d + n));
      destruct (Z.leb_spec (toordinal d + n) MAXORDINAL);
      try reflexivity; lia.
Qed.

Lemma add_days_ordinal_witness :
  (∃ d', _add_days (Date 2020 12 25) (DInt 10) = Ok d' ∧ valid d'
         ∧ toordinal d' = toordinal (Date 2020 12 25) + 10
         ∧ sub d' (Date 2020 12 25) = timedelta_days 10
         ∧ weekday d' = (weekday (Date 2020 12 25) + 10) mod 7)
  ∧ _add_days (Date 9999 12 25) (DInt 10) = Raise OverflowError.
Proof.
  split.
  - apply (add_days_ordinal (Date 2020 12 25) 10). vm_compute.
    split; discriminate.
  - apply (add_days_ordinal (Date 9999 12 25) 10). vm_compute.
    intros [_ H]. apply H. reflexivity.
Defined.

(** X13.  Adding [n] days and then [-n] days to a valid date gives the
    date back. *)
Theorem add_days_round_trip (d : date) (n : Z) :
  valid d → 1 ≤ toordinal d + n ≤ MAXORDINAL →
  (d' ← _add_days d (DInt n); _add_days d' (DInt (- n))) = Ok d.
Proof.
  intros Hv Hn. pose proof (toordinal_valid d Hv) as Hd.
  unfold _add_days, timedelta_days.
  rewrite add_shift by lia. rewrite bind_Ok.
  rewrite add_shift by (rewrite toordinal_shift; lia).
  rewrite (shift_shift d n (- n) 0) by lia.
  unfold shift. rewrite Z.add_0_r. f_equal. by apply ord2ymd_toordinal.
Qed.

Lemma add_days_round_trip_witness :
  (d' ← _add_days (Date 2020 2 20) (DInt 15); _add_days d' (DInt (- 15)))
  = Ok (Date 2020 2 20).
Proof.
  apply (add_days_round_trip (Date 2020 2 20) 15).
  - unfold valid. vm_compute. repeat split; discriminate.
  - vm_compute. split; discriminate.
Defined.

(** X14.  Two additions in a row are one addition of the sum: after
    [_add_days(d, a)] has returned [d1], [_add_days(d1, b)] is
    [_add_days(d, a + b)], the overflow included. *)
Theorem add_days_compose (d d1 : date) (a b : Z) :
  _add_days d (DInt a) = Ok d1 →
  _add_days d1 (DInt b) = _add_days d (DInt (a + b)).
Proof.
  rewrite !add_days_int. intros Ha.
  destruct ((0 <? toordinal d + a) && (toordinal d + a <=? MAXORDINAL));
    [|discriminate].
  injection Ha as <-. rewrite toordinal_shift, Z.add_assoc.
  destruct ((0 <? toordinal d + a + b)
            && (toordinal d + a + b <=? MAXORDINAL)); [|reflexivity].
  f_equal. by apply shift_shift.
Qed.

Lemma add_days_compose_witness :
  _add_days (Date 2021 1 4) (DInt 4)
  = _add_days (Date 2020 8 24) (DInt (133 + 4)).
Proof.
  apply (add_days_compose (Date 2020 8 24) (Date 2021 1 4) 133 4).
  vm_compute. reflexivity.
Defined.

(** ** The constructor *)

(** X15.  For a start year and an end year from 1 to 9999 the
    constructor succeeds; the academic years are those from the start
    year up to, and without, the end year (none when the end year is not
    after the start year), and [self.dates] has a dictionary for these
    years and for no other. *)
Theorem init_years_of_range (now_year sy ey : Z) :
  1 ≤ sy ≤ MAXYEAR → 1 ≤ ey ≤ MAXYEAR →
  ∃ cal, __init__ now_year sy (Some ey) = Ok cal
         ∧ years cal = seqZ sy (ey - sy)
         ∧ n_yrs cal = Z.max 0 (ey - sy)
         ∧ min_date cal = Date sy 8 1 ∧ max_date cal = Date ey 8 1
         ∧ (∀ Y, is_Some (dates cal !! Y) ↔ sy ≤ Y < ey)
         ∧ (ey ≤ sy → dates cal = ∅).
Proof.
  intros Hsy Hey.
  destruct (init_spec now_year sy ey Hsy Hey) as (cal & Hinit & Hcal).
  exists cal. split; [exact Hinit|].
  pose proof (λ Y, calendar_dates_lookup sy ey cal Y Hcal) as Hlook.
  destruct Hcal as (Hyears & Hn & Hmin & Hmax & _ & _ & _ & Hdates).
  repeat (split; [assumption|]).
  split.
  - intros Y. rewrite (Hlook Y).
    destruct (decide (sy ≤ Y < ey)) as [H|H].
    + split; [done|]. intros _. by eexists.
    + split; [by intros [? ?]|]. intros H'. by destruct (H H').
  - intros Hle. rewrite Hdates.
    replace (ey - sy) with (- (sy - ey)) by lia.
    destruct (Z.eq_dec (sy - ey) 0) as [->|Hne]; [reflexivity|].
    unfold seqZ. replace (Z.to_nat (- (sy - ey))) with 0%nat by lia.
    reflexivity.
Qed.

Lemma init_years_of_range_witness :
  ∃ cal, __init__ 2026 2012 (Some 2022) = Ok cal
         ∧ years cal = seqZ 2012 (2022 - 2012)
         ∧ n_yrs cal = Z.max 0 (2022 - 2012)
         ∧ min_date cal = Date 2012 8 1 ∧ max_date cal = Date 2022 8 1
         ∧ (∀ Y, is_Some (dates cal !! Y) ↔ 2012 ≤ Y < 2022)
         ∧ (2022 ≤ 2012 → dates cal = ∅).
Proof. apply (init_years_of_range 2026 2012 2022); unfold MAXYEAR; lia. Defined.




Lemma year_entry_dom (yr : Z) (fs fbs th ld sw ind : date) :
  dom (year_entry yr fs fbs th ld sw ind) = list_to_set year_fields.
Proof.
  unfold year_entry. cbv zeta. rewrite !dom_insert_L, dom_empty_L.
  match goal with
  | |- ?X = ?Y => apply (bool_decide_eq_true_1 (X = Y))
  end.
  vm_compute. reflexivity.
Qed.

(** X17.  The dictionary of every year of the range has the same 29
    keys, those of [year_fields]: fifteen for the fall, ten for the
    spring and four for the summer. *)
Theorem year_dictionary_keys (now_year sy ey Y : Z) :
  1 ≤ sy ≤ MAXYEAR → 1 ≤ ey ≤ MAXYEAR → sy ≤ Y < ey →
  ∃ cal yd,
    __init__ now_year sy (Some ey) = Ok cal
    ∧ dates cal !! Y = Some yd
    ∧ dom yd = list_to_set year_fields
    ∧ size yd = 29%nat.
Proof.
  intros Hsy Hey HY.
  destruct (calendar_year now_year sy ey Y Hsy Hey HY) as (cal & Hinit & Hd).
  exists cal, (entry Y). split; [exact Hinit|]. split; [exact Hd|].
  unfold entry. split; [apply year_entry_dom|].
  rewrite <- size_dom, year_entry_dom.
  apply Nat.eqb_eq. vm_compute. reflexivity.
Qed.

Lemma year_dictionary_keys_witness :
  ∃ cal yd,
    __init__ 2026 2012 (Some 2022) = Ok cal
    ∧ dates cal !! 2020 = Some yd
    ∧ dom yd = list_to_set year_fields
    ∧ size yd = 29%nat.
Proof.
  apply (year_dictionary_keys 2026 2012 2022 2020); unfold MAXYEAR; lia.
Defined.

(** ** The dates stored for a year *)

Section more_entry_lookups.
Context (yr : Z) (fs fbs th ld sw ind : date).
Local Abbreviation e' := (year_entry yr fs fbs th ld sw ind).

Lemma entry_thanksgiving_break_start :
  e' !! "Thanksgiving Break Start" = Some (shift th (-1)).
Proof. entry_lookup. Qed.
Lemma entry_thanksgiving_break_end :
  e' !! "Thanksgiving Break End" = Some (shift th 1).
Proof. entry_lookup. Qed.
Lemma entry_fall_break_start : e' !! "Fall Break Start" = Some fbs.
Proof. entry_lookup. Qed.
Lemma entry_fall_break_end : e' !! "Fall Break End" = Some (shift fbs 1).
Proof. entry_lookup. Qed.
Lemma entry_fall_withdraw_deadline :
  e' !! "Fall Withdraw Deadline" = Some (shift fbs 2).
Proof. entry_lookup. Qed.
Lemma entry_labor_day : e' !! "Labor Day" = Some ld.
Proof. entry_lookup. Qed.
Lemma entry_spring_withdraw_deadline :
  e' !! "Spring Withdraw Deadline" = Some sw.
Proof. entry_lookup. Qed.
Lemma entry_spring_classes_start :
  e' !! "Spring Classes Start" = Some (shift fs 140).
Proof. entry_lookup. Qed.
Lemma entry_fall_finals_end : e' !! "Fall Finals End" = Some (shift fs 116).
Proof. entry_lookup. Qed.
Lemma entry_spring_finals_end :
  e' !! "Spring Finals End" = Some (shift fs 256).
Proof. entry_lookup. Qed.
End more_entry_lookups.

(** X18.  The Thanksgiving break stored for a year runs from the
    Wednesday before the date of the Thanksgiving rule to the Friday
    after it, two days later. *)
Theorem thanksgiving_break_wednesday_to_friday (now_year sy ey Y : Z) :
  1 ≤ sy ≤ MAXYEAR → 1 ≤ ey ≤ MAXYEAR → sy ≤ Y < ey →
  ∃ cal yd thanks b_start b_end,
    __init__ now_year sy (Some ey) = Ok cal
    ∧ dates cal !! Y = Some yd
    ∧ _thanksgiving (VDate (Date Y 1 1)) VNone (VInt 1) = Ok [thanks]
    ∧ yd !! "Thanksgiving Break Start" = Some b_start
    ∧ yd !! "Thanksgiving Break End" = Some b_end
    ∧ sub thanks b_start = timedelta_days 1
    ∧ sub b_end thanks = timedelta_days 1
    ∧ sub b_end b_start = timedelta_days 2
    ∧ weekday b_start = Rrule.WE ∧ weekday b_end = Rrule.FR.
Proof.
  intros Hsy Hey HY.
  destruct (calendar_year now_year sy ey Y Hsy Hey HY) as (cal & Hinit & Hd).
  exists cal, (entry Y), (occ thanksgiving_by Y). do 2 eexists.
  split; [exact Hinit|]. split; [exact Hd|].
  split.
  { rewrite thanksgiving_eval,
      (iter_from_january _ _ _ _ _ thanksgiving_regular)
      by (unfold MAXYEAR in *; lia).
    reflexivity. }
  unfold entry.
  rewrite entry_thanksgiving_break_start, entry_thanksgiving_break_end.
  split; [reflexivity|]. split; [reflexivity|].
  destruct (occ_spec _ _ _ _ _ thanksgiving_regular Y) as (_ & _ & _ & _ & Hw).
  rewrite !weekday_shift, (Hw _ eq_refl).
  unfold sub. rewrite !toordinal_shift.
  repeat split; try reflexivity; f_equal; lia.
Qed.

Lemma thanksgiving_break_wednesday_to_friday_witness :
  ∃ cal yd thanks b_start b_end,
    __init__ 2026 2012 (Some 2022) = Ok cal
    ∧ dates cal !! 2020 = Some yd
    ∧ _thanksgiving (VDate (Date 2020 1 1)) VNone (VInt 1) = Ok [thanks]
    ∧ yd !! "Thanksgiving Break Start" = Some b_start
    ∧ yd !! "Thanksgiving Break End" = Some b_end
    ∧ sub thanks b_start = timedelta_days 1
    ∧ sub b_end thanks = timedelta_days 1
    ∧ sub b_end b_start = timedelta_days 2
    ∧ weekday b_start = Rrule.WE ∧ weekday b_end = Rrule.FR.
Proof.
  apply (thanksgiving_break_wednesday_to_friday 2026 2012 2022 2020);
    unfold MAXYEAR; lia.
Defined.

(** X19.  The fall break stored for a year starts on the date of the
    fall break rule, a Monday of October, and ends the next day, a
    Tuesday; the fall withdraw deadline is the day after, a Wednesday. *)
Theorem fall_break_monday_to_tuesday (now_year sy ey Y : Z) :
  1 ≤ sy ≤ MAXYEAR → 1 ≤ ey ≤ MAXYEAR → sy ≤ Y < ey →
  ∃ cal yd b_start b_end withdraw,
    __init__ now_year sy (Some ey) = Ok cal
    ∧ dates cal !! Y = Some yd
    ∧ _fall_break_start (VDate (Date Y 1 1)) VNone (VInt 1) = Ok [b_start]
    ∧ yd !! "Fall Break Start" = Some b_start
    ∧ yd !! "Fall Break End" = Some b_end
    ∧ yd !! "Fall Withdraw Deadline" = Some withdraw
    ∧ sub b_end b_start = timedelta_days 1
    ∧ sub withdraw b_end = timedelta_days 1
    ∧ weekday b_start = Rrule.MO ∧ weekday b_end = Rrule.TU
    ∧ weekday withdraw = Rrule.WE.
Proof.
  intros Hsy Hey HY.
  destruct (calendar_year now_year sy ey Y Hsy Hey HY) as (cal & Hinit & Hd).
  exists cal, (entry Y), (occ fall_break_start_by Y). do 2 eexists.
  split; [exact Hinit|]. split; [exact Hd|].
  split.
  { rewrite fall_break_start_eval,
      (iter_from_january _ _ _ _ _ fall_break_start_regular)
      by (unfold MAXYEAR in *; lia).
    reflexivity. }
  unfold entry.
  rewrite entry_fall_break_start, entry_fall_break_end,
    entry_fall_withdraw_deadline.
  do 3 (split; [reflexivity|]).
  destruct (occ_spec _ _ _ _ _ fall_break_start_regular Y)
    as (_ & _ & _ & _ & Hw).
  rewrite !weekday_shift, (Hw _ eq_refl).
  unfold sub. rewrite !toordinal_shift.
  repeat split; try reflexivity; f_equal; lia.
Qed.

Lemma fall_break_monday_to_tuesday_witness :
  ∃ cal yd b_start b_end withdraw,
    __init__ 2026 2012 (Some 2022) = Ok cal
    ∧ dates cal !! 2020 = Some yd
    ∧ _fall_break_start (VDate (Date 2020 1 1)) VNone (VInt 1)
      = Ok [b_start]
    ∧ yd !! "Fall Break Start" = Some b_start
    ∧ yd !! "Fall Break End" = Some b_end
    ∧ yd !! "Fall Withdraw Deadline" = Some withdraw
    ∧ sub b_end b_start = timedelta_days 1
    ∧ sub withdraw b_end = timedelta_days 1
    ∧ weekday b_start = Rrule.MO ∧ weekday b_end = Rrule.TU
    ∧ weekday withdraw = Rrule.WE.
Proof.
  apply (fall_break_monday_to_tuesday 2026 2012 2022 2020);
    unfold MAXYEAR; lia.
Defined.

(** The fall start of year [y], moved into December and into January
    of the next year. *)
Lemma fall_start_shifted (y : Z) :
  let fs := occ fall_start_by y in
  shift fs 116 = Date y 12 (day fs - 6)
  ∧ shift fs 140 = Date (y + 1) 1 (day fs - 13).
Proof.
  intros fs.
  destruct (occ_spec _ _ _ _ _ fall_start_regular y)
    as (_ & Hyear & Hmonth & Hday & _).
  fold fs in Hyear, Hmonth, Hday.
  assert (toordinal fs
          = days_before_year y + 1
            + (211 + (if is_leap y then 1 else 0) + day fs)) as Hord.
  { unfold toordinal, ymd2ord, days_before_month.
    rewrite Hyear, Hmonth. simpl. destruct (is_leap y); lia. }
  assert (day fs = 18 ∨ day fs = 19 ∨ day fs = 20 ∨ day fs = 21
          ∨ day fs = 22 ∨ day fs = 23 ∨ day fs = 24) as Hcases by lia.
  unfold shift. rewrite Hord. split.
  - replace (days_before_year y + 1
             + (211 + (if is_leap y then 1 else 0) + day fs) + 116)
      with (days_before_year y + 1
            + (327 + (if is_leap y then 1 else 0) + day fs)) by lia.
    rewrite ord2ymd_in_year
      by (unfold days_in_year; destruct (is_leap y); lia).
    destruct (is_leap y); decompose [or] Hcases; clear Hcases;
      match goal with H : day fs = _ |- _ => rewrite H end; reflexivity.
  - pose proof (days_before_year_succ y) as Hsucc.
    unfold days_in_year in Hsucc.
    replace (days_before_year y + 1
             + (211 + (if is_leap y then 1 else 0) + day fs) + 140)
      with (days_before_year (y + 1) + 1 + (day fs - 14)) by lia.
    rewrite ord2ymd_in_year
      by (unfold days_in_year; destruct (is_leap (y + 1)); lia).
    destruct (is_leap (y + 1)); decompose [or] Hcases; clear Hcases;
      match goal with H : day fs = _ |- _ => rewrite H end; reflexivity.
Qed.

(** X20.  In every year [Y] of the range the fall term starts on the
    date of the fall start rule, a Monday of August of [Y] between the
    18th and the 24th, and ends on a Friday of December of [Y], between
    the 12th and the 18th; the spring term starts twenty weeks after the
    fall term, on a Monday of January of [Y + 1] between the 5th and
    the 11th, and ends on a Friday.  Classes start with the term and
    finals end with it. *)
Theorem term_anchor_weekdays (now_year sy ey Y : Z) :
  1 ≤ sy ≤ MAXYEAR → 1 ≤ ey ≤ MAXYEAR → sy ≤ Y < ey →
  ∃ cal yd f_start f_end sp_start sp_end,
    __init__ now_year sy (Some ey) = Ok cal
    ∧ dates cal !! Y = Some yd
    ∧ _fall_start (VDate (Date Y 1 1)) VNone (VInt 1) = Ok [f_start]
    ∧ yd !! "Fall Term Start" = Some f_start
    ∧ yd !! "Fall Classes Start" = Some f_start
    ∧ yd !! "Fall Term End" = Some f_end
    ∧ yd !! "Fall Finals End" = Some f_end
    ∧ yd !! "Spring Term Start" = Some sp_start
    ∧ yd !! "Spring Classes Start" = Some sp_start
    ∧ yd !! "Spring Term End" = Some sp_end
    ∧ yd !! "Spring Finals End" = Some sp_end
    ∧ weekday f_start = Rrule.MO ∧ weekday f_end = Rrule.FR
    ∧ weekday sp_start = Rrule.MO ∧ weekday sp_end = Rrule.FR
    ∧ f_end = Date Y 12 (day f_start - 6)
    ∧ sp_start = Date (Y + 1) 1 (day f_start - 13)
    ∧ 18 ≤ day f_start ≤ 24
    ∧ sub sp_start f_start = timedelta_weeks 20.
Proof.
  intros Hsy Hey HY.
  destruct (calendar_year now_year sy ey Y Hsy Hey HY) as (cal & Hinit & Hd).
  exists cal, (entry Y), (occ fall_start_by Y). do 3 eexists.
  split; [exact Hinit|]. split; [exact Hd|].
  split.
  { rewrite fall_start_eval,
      (iter_from_january _ _ _ _ _ fall_start_regular)
      by (unfold MAXYEAR in *; lia).
    reflexivity. }
  unfold entry.
  rewrite entry_fall_term_start, entry_fall_classes_start,
    entry_fall_term_end, entry_fall_finals_end, entry_spring_term_start,
    entry_spring_classes_start, entry_spring_term_end,
    entry_spring_finals_end.
  do 8 (split; [reflexivity|]).
  destruct (occ_spec _ _ _ _ _ fall_start_regular Y)
    as (_ & _ & _ & Hday & Hw).
  destruct (fall_start_shifted Y) as [Hfe Hss].
  rewrite !weekday_shift, (Hw _ eq_refl), sub_shift.
  do 4 (split; [reflexivity|]).
  split; [exact Hfe|]. split; [exact Hss|]. split; [exact Hday|].
  reflexivity.
Qed.

Lemma term_anchor_weekdays_witness :
  ∃ cal yd f_start f_end sp_start sp_end,
    __init__ 2026 2012 (Some 2022) = Ok cal
    ∧ dates cal !! 2020 = Some yd
    ∧ _fall_start (VDate (Date 2020 1 1)) VNone (VInt 1) = Ok [f_start]
    ∧ yd !! "Fall Term Start" = Some f_start
    ∧ yd !! "Fall Classes Start" = Some f_start
    ∧ yd !! "Fall Term End" = Some f_end
    ∧ yd !! "Fall Finals End" = Some f_end
    ∧ yd !! "Spring Term Start" = Some sp_start
    ∧ yd !! "Spring Classes Start" = Some sp_start
    ∧ yd !! "Spring Term End" = Some sp_end
    ∧ yd !! "Spring Finals End" = Some sp_end
    ∧ weekday f_start = Rrule.MO ∧ weekday f_end = Rrule.FR
    ∧ weekday sp_start = Rrule.MO ∧ weekday sp_end = Rrule.FR
    ∧ f_end = Date 2020 12 (day f_start - 6)
    ∧ sp_start = Date (2020 + 1) 1 (day f_start - 13)
    ∧ 18 ≤ day f_start ≤ 24
    ∧ sub sp_start f_start = timedelta_weeks 20.
Proof.
  apply (term_anchor_weekdays 2026 2012 2022 2020); unfold MAXYEAR; lia.
Defined.

(** ** [get_holiday], continued *)

(** For each of the five holiday names, the holiday of academic year [Y]
    is the date of the rule in the calendar year the name calls for. *)
Lemma get_holiday_occ (cal : BSUCalendar) (Y : Z) (name : string)
    (gen : pyval → pyval → pyval → result (list date))
    (b : Rrule.byrules) (shifted : bool) :
  (name, gen, b, shifted) ∈ holiday_rules →
  let y := if shifted then Y + 1 else Y in
  1 ≤ y ≤ MAXYEAR →
  get_holiday cal name Y = Ok (occ b y)
  ∧ gen (VDate (Date y 1 1)) VNone (VInt 1) = Ok [occ b y]
  ∧ year (occ b y) = y.
Proof.
  intros Hin y Hy. unfold holiday_rules in Hin.
  destruct getattr_rule_names as (Hth & Hld & Hmlk & Hmem & Hind).
  repeat (apply elem_of_cons in Hin as [[= -> -> -> ->]|Hin]);
    [| | | | |by apply elem_of_nil in Hin].
  - destruct (get_holiday_rule thanksgiving_by 11 22 28 (Some Rrule.TH)
                _thanksgiving "Thanksgiving" false thanksgiving_regular
                ltac:(lia) ltac:(lia) thanksgiving_eval Hth eq_refl
                cal Y Hy) as [H1 H2].
    split; [exact H1|]. split; [exact H2|].
    apply (occ_year _ _ _ _ _ thanksgiving_regular).
  - destruct (get_holiday_rule labor_day_by 9 1 7 (Some Rrule.MO)
                _labor_day "Labor Day" false labor_day_regular
                ltac:(lia) ltac:(lia) labor_day_eval Hld eq_refl
                cal Y Hy) as [H1 H2].
    split; [exact H1|]. split; [exact H2|].
    apply (occ_year _ _ _ _ _ labor_day_regular).
  - destruct (get_holiday_rule mlk_day_by 1 15 21 (Some Rrule.MO)
                _mlk_day "MLK Day" true mlk_day_regular
                ltac:(lia) ltac:(lia) mlk_day_eval Hmlk eq_refl
                cal Y Hy) as [H1 H2].
    split; [exact H1|]. split; [exact H2|].
    apply (occ_year _ _ _ _ _ mlk_day_regular).
  - destruct (get_holiday_rule memorial_day_by 3 25 31 (Some Rrule.MO)
                _memorial_day "Memorial Day" true memorial_day_regular
                ltac:(lia) ltac:(lia) memorial_day_eval Hmem eq_refl
                cal Y Hy) as [H1 H2].
    split; [exact H1|]. split; [exact H2|].
    apply (occ_year _ _ _ _ _ memorial_day_regular).
  - destruct (get_holiday_rule independence_day_by 7 4 4 None
                _independence_day "Independence Day" true
                independence_day_regular
                ltac:(lia) ltac:(lia) independence_day_eval Hind eq_refl
                cal Y Hy) as [H1 H2].
    split; [exact H1|]. split; [exact H2|].
    apply (occ_year _ _ _ _ _ independence_day_regular).
Qed.

(** X21.  For every year of the range, [get_holiday] agrees with the
    dates [__init__] stored: Labor Day is the stored ["Labor Day"],
    Independence Day the stored ["Independenc Day"], and Thanksgiving
    the day after the stored ["Thanksgiving Break Start"]. *)
Theorem get_holiday_agrees_with_stored_dates (now_year sy ey Y : Z) :
  1 ≤ sy ≤ MAXYEAR → 1 ≤ ey ≤ MAXYEAR → sy ≤ Y < ey →
  ∃ cal yd labor independence thanks b_start,
    __init__ now_year sy (Some ey) = Ok cal
    ∧ dates cal !! Y = Some yd
    ∧ get_holiday cal "Labor Day" Y = Ok labor
    ∧ yd !! "Labor Day" = Some labor
    ∧ get_holiday cal "Independence Day" Y = Ok independence
    ∧ yd !! "Independenc Day" = Some independence
    ∧ get_holiday cal "Thanksgiving" Y = Ok thanks
    ∧ yd !! "Thanksgiving Break Start" = Some b_start
    ∧ sub thanks b_start = timedelta_days 1.
Proof.
  intros Hsy Hey HY.
  destruct (calendar_year now_year sy ey Y Hsy Hey HY) as (cal & Hinit & Hd).
  exists cal, (entry Y), (occ labor_day_by Y),
    (occ independence_day_by (Y + 1)), (occ thanksgiving_by Y).
  eexists.
  split; [exact Hinit|]. split; [exact Hd|]. unfold entry.
  rewrite entry_labor_day, entry_independenc_day,
    entry_thanksgiving_break_start.
  split.
  { apply (get_holiday_occ cal Y "Labor Day" _labor_day labor_day_by false);
      [unfold holiday_rules; right; left | unfold MAXYEAR in *; lia]. }
  split; [reflexivity|]. split.
  { apply (get_holiday_occ cal Y "Independence Day" _independence_day
             independence_day_by true);
      [unfold holiday_rules; do 4 right; left | unfold MAXYEAR in *; lia]. }
  split; [reflexivity|]. split.
  { apply (get_holiday_occ cal Y "Thanksgiving" _thanksgiving
             thanksgiving_by false);
      [unfold holiday_rules; left | unfold MAXYEAR in *; lia]. }
  split; [reflexivity|].
  unfold sub. rewrite toordinal_shift. f_equal. lia.
Qed.

Lemma get_holiday_agrees_with_stored_dates_witness :
  ∃ cal yd labor independence thanks b_start,
    __init__ 2026 2012 (Some 2022) = Ok cal
    ∧ dates cal !! 2020 = Some yd
    ∧ get_holiday cal "Labor Day" 2020 = Ok labor
    ∧ yd !! "Labor Day" = Some labor
    ∧ get_holiday cal "Independence Day" 2020 = Ok independence
    ∧ yd !! "Independenc Day" = Some independence
    ∧ get_holiday cal "Thanksgiving" 2020 = Ok thanks
    ∧ yd !! "Thanksgiving Break Start" = Some b_start
    ∧ sub thanks b_start = timedelta_days 1.
Proof.
  apply (get_holiday_agrees_with_stored_dates 2026 2012 2022 2020);
    unfold MAXYEAR; lia.
Defined.

(** X22.  Of the five names in [self.holidays], [get_holiday] resolves
    four; the first, ["Thanksgiving Break"], names no rule method and
    raises [ValueError]. *)
Theorem get_holiday_on_the_holidays_tuple (now_year sy ey Y : Z) :
  1 ≤ sy ≤ MAXYEAR → 1 ≤ ey ≤ MAXYEAR → 1 ≤ Y → Y + 1 ≤ MAXYEAR →
  ∃ cal,
    __init__ now_year sy (Some ey) = Ok cal
    ∧ ∀ h, h ∈ holidays cal →
        (h = "Thanksgiving Break"
         ∧ get_holiday cal h Y
           = Raise (ValueError "Holiday Thanksgiving Break not recognized"))
        ∨ (h ≠ "Thanksgiving Break" ∧ ∃ d, get_holiday cal h Y = Ok d).
Proof.
  intros Hsy Hey HY HY'.
  destruct (init_spec now_year sy ey Hsy Hey) as (cal & Hinit & Hcal).
  exists cal. split; [exact Hinit|].
  destruct Hcal as (_ & _ & _ & _ & -> & _).
  intros h Hh. unfold the_holidays in Hh.
  repeat (apply elem_of_cons in Hh as [->|Hh]);
    [| | | |
     |by apply elem_of_nil in Hh].
  - left. split; reflexivity.
  - right. split; [discriminate|]. eexists.
    apply (get_holiday_occ cal Y "Labor Day" _labor_day labor_day_by false);
      [unfold holiday_rules; right; left | lia].
  - right. split; [discriminate|]. eexists.
    apply (get_holiday_occ cal Y "MLK Day" _mlk_day mlk_day_by true);
      [unfold holiday_rules; do 2 right; left | lia].
  - right. split; [discriminate|]. eexists.
    apply (get_holiday_occ cal Y "Memorial Day" _memorial_day
             memorial_day_by true);
      [unfold holiday_rules; do 3 right; left | lia].
  - right. split; [discriminate|]. eexists.
    apply (get_holiday_occ cal Y "Independence Day" _independence_day
             independence_day_by true);
      [unfold holiday_rules; do 4 right; left | lia].
Qed.

Lemma get_holiday_on_the_holidays_tuple_witness :
  ∃ cal,
    __init__ 2026 2012 (Some 2022) = Ok cal
    ∧ ∀ h, h ∈ holidays cal →
        (h = "Thanksgiving Break"
         ∧ get_holiday cal h 2020
           = Raise (ValueError "Holiday Thanksgiving Break not recognized"))
        ∨ (h ≠ "Thanksgiving Break" ∧ ∃ d, get_holiday cal h 2020 = Ok d).
Proof.
  apply (get_holiday_on_the_holidays_tuple 2026 2012 2022 2020);
    unfold MAXYEAR; lia.
Defined.

Lemma getattr_holiday_rules (name : string)
    (gen : pyval → pyval → pyval → result (list date))
    (b : Rrule.byrules) (shifted : bool) :
  (name, gen, b, shifted) ∈ holiday_rules →
  getattr ("_" +:+ replace " " "_" (lower name)) = Some (ARule gen)
  ∧ bool_decide (name ∈ shifted_holidays) = shifted.
Proof.
  intros Hin. unfold holiday_rules in Hin.
  repeat (apply elem_of_cons in Hin as [[= -> -> -> ->]|Hin]);
    [| | | | |by apply elem_of_nil in Hin];
    split; reflexivity.
Qed.



(** X24.  The name of a holiday is matched without regard to case, but
    the year shift is decided on the exact name: MLK Day, Memorial Day
    or Independence Day written in another case is computed in the
    calendar year [Y] itself, a year before the date of the exact
    name. *)
Theorem get_holiday_other_case_is_not_shifted (cal : BSUCalendar) (Y : Z)
    (h name : string) (gen : pyval → pyval → pyval → result (list date))
    (b : Rrule.byrules) :
  (name, gen, b, true) ∈ holiday_rules →
  lower h = lower name → h ≠ name → 1 ≤ Y → Y + 1 ≤ MAXYEAR →
  ∃ d d',
    get_holiday cal h Y = Ok d ∧ year d = Y
    ∧ gen (VDate (Date Y 1 1)) VNone (VInt 1) = Ok [d]
    ∧ get_holiday cal name Y = Ok d' ∧ year d' = Y + 1.
Proof.
  intros Hin Hlower Hne HY HY'.
  destruct (getattr_holiday_rules _ _ _ _ Hin) as [Hattr _].
  destruct (get_holiday_occ cal Y name gen b true Hin ltac:(lia))
    as (Hexact & _ & Hyear).
  assert (bool_decide (h ∈ shifted_holidays) = false) as Hsh.
  { apply bool_decide_eq_false. intros Hh.
    unfold shifted_holidays in Hh. unfold holiday_rules in Hin.
    repeat (apply elem_of_cons in Hin as [[= -> -> ->]|Hin]);
      try (by apply elem_of_nil in Hin);
      repeat (apply elem_of_cons in Hh as [->|Hh]);
      try (by apply elem_of_nil in Hh);
      first [ by apply Hne | discriminate Hlower ]. }
  assert (∀ M lo hi wd,
    regularb b M lo hi wd = true → 1 ≤ M → 1 ≤ lo →
    (∀ ds c, gen (VDate ds) VNone (VInt c)
             = Ok (Rrule.iter (rule_of b ds c))) →
    get_holiday cal h Y = Ok (occ b Y)
    ∧ gen (VDate (Date Y 1 1)) VNone (VInt 1) = Ok [occ b Y]
    ∧ year (occ b Y) = Y) as Hrule.
  { intros M lo hi wd Hreg HM Hlo Hgen.
    rewrite <- Hlower in Hattr.
    destruct (get_holiday_rule b M lo hi wd gen h false Hreg HM Hlo Hgen
                Hattr Hsh cal Y ltac:(lia)) as [H1 H2].
    split; [exact H1|]. split; [exact H2|].
    apply (occ_year _ _ _ _ _ Hreg). }
  exists (occ b Y), (occ b (Y + 1)).
  assert (get_holiday cal h Y = Ok (occ b Y)
          ∧ gen (VDate (Date Y 1 1)) VNone (VInt 1) = Ok [occ b Y]
          ∧ year (occ b Y) = Y) as (H1 & H2 & H3).
  { unfold holiday_rules in Hin.
    repeat (apply elem_of_cons in Hin as [[= -> -> ->]|Hin]);
      try (by apply elem_of_nil in Hin).
    - apply (Hrule _ _ _ _ mlk_day_regular ltac:(lia) ltac:(lia)
               mlk_day_eval).
    - apply (Hrule _ _ _ _ memorial_day_regular ltac:(lia) ltac:(lia)
               memorial_day_eval).
    - apply (Hrule _ _ _ _ independence_day_regular ltac:(lia) ltac:(lia)
               independence_day_eval). }
  split; [exact H1|]. split; [exact H3|]. split; [exact H2|].
  split; [exact Hexact | exact Hyear].
Qed.

Lemma get_holiday_other_case_is_not_shifted_witness :
  ∃ cal d d',
    __init__ 2026 2012 (Some 2022) = Ok cal
    ∧ get_holiday cal "mlk day" 2020 = Ok d ∧ year d = 2020
    ∧ _mlk_day (VDate (Date 2020 1 1)) VNone (VInt 1) = Ok [d]
    ∧ get_holiday cal "MLK Day" 2020 = Ok d' ∧ year d' = 2020 + 1.
Proof.
  destruct (init_spec 2026 2012 2022) as (cal & Hinit & _);
    [unfold MAXYEAR; lia..|].
  destruct (get_holiday_other_case_is_not_shifted cal 2020 "mlk day"
              "MLK Day" _mlk_day mlk_day_by) as (d & d' & H);
    [unfold holiday_rules; do 2 right; left | reflexivity | discriminate
    | lia | unfold MAXYEAR; lia |].
  exists cal, d, d'. split; [exact Hinit | exact H].
Defined.

(** ** [date_in_term]: errors and rounding *)

(** X25.  For a calendar of the years from [sy] up to [ey], and a term
    code of year [Y] (below [2**53], where the division by 100 is
    exact), [date_in_term] raises [KeyError] when [Y] is not a year of
    the calendar, and when the field is not one of the 29 keys of a
    year; otherwise it returns a date. *)
Theorem date_in_term_key_error (now_year sy ey Y s : Z) (field : string) :
  1 ≤ sy ≤ MAXYEAR → 1 ≤ ey ≤ MAXYEAR →
  Z.abs Y < 2 ^ 53 → semester_code s →
  ∃ cal,
    __init__ now_year sy (Some ey) = Ok cal
    ∧ (¬ (sy ≤ Y < ey) ∨ field ∉ year_fields →
       date_in_term cal (Y * 100 + s) field = Raise KeyError)
    ∧ (sy ≤ Y < ey → field ∈ year_fields →
       ∃ d, date_in_term cal (Y * 100 + s) field = Ok d).
Proof.
  intros Hsy Hey HY Hs.
  destruct (init_spec now_year sy ey Hsy Hey) as (cal & Hinit & Hcal).
  exists cal. split; [exact Hinit|].
  pose proof (calendar_dates_lookup sy ey cal Y Hcal) as Hlook.
  assert (∀ k, is_Some (entry Y !! k) ↔ k ∈ year_fields) as Hkeys.
  { intros k. rewrite <- elem_of_dom. unfold entry.
    rewrite year_entry_dom. apply elem_of_list_to_set. }
  destruct (decide (sy ≤ Y < ey)) as [Hin|Hout].
  - split.
    + intros [H|H]; [done|].
      rewrite (date_in_term_stored cal Y s _ (entry Y)) by done.
      unfold getitem. destruct (entry Y !! field) eqn:Hf; [|reflexivity].
      destruct H. apply Hkeys. by eexists.
    + intros _ Hf. apply Hkeys in Hf as [d Hd]. exists d.
      rewrite (date_in_term_stored cal Y s _ (entry Y)) by done.
      unfold getitem. by rewrite Hd.
  - split; [|done]. intros _. unfold date_in_term.
    rewrite year_of_term_semester by (unfold semester_code in Hs; lia).
    rewrite bind_Ok. unfold getitem. by rewrite Hlook.
Qed.

Lemma date_in_term_key_error_witness :
  ∃ cal,
    __init__ 2026 2012 (Some 2022) = Ok cal
    ∧ (¬ (2012 ≤ 2030 < 2022) ∨ "Fall Term Start" ∉ year_fields →
       date_in_term cal (2030 * 100 + 10) "Fall Term Start" = Raise KeyError)
    ∧ (2012 ≤ 2030 < 2022 → "Fall Term Start" ∈ year_fields →
       ∃ d, date_in_term cal (2030 * 100 + 10) "Fall Term Start" = Ok d).
Proof.
  apply (date_in_term_key_error 2026 2012 2022 2030 10 "Fall Term Start");
    unfold MAXYEAR, semester_code; simpl; lia.
Defined.

Lemma divmod_near_large (q r : Z) :
  50 < r < 100 → divmod_near (q * 100 + r) 100 = (q + 1, r - 100).
Proof.
  intros Hr. unfold divmod_near.
  assert ((q * 100 + r) / 100 = q) as ->
    by (rewrite Z.div_add_l by lia; rewrite Z.div_small by lia; lia).
  assert ((q * 100 + r) mod 100 = r) as ->
    by (rewrite Z.add_comm, Z.mod_add by lia; apply Z.mod_small; lia).
  replace (100 <? 2 * r) with true by (symmetry; apply Z.ltb_lt; lia).
  reflexivity.
Qed.

Lemma divmod_near_tie (q : Z) :
  divmod_near (q * 100 + 50) 100
  = if Z.odd q then (q + 1, -50) else (q, 50).
Proof.
  unfold divmod_near.
  assert ((q * 100 + 50) / 100 = q) as ->
    by (rewrite Z.div_add_l by lia; rewrite Z.div_small by lia; lia).
  assert ((q * 100 + 50) mod 100 = 50) as ->
    by (rewrite Z.add_comm, Z.mod_add by lia; apply Z.mod_small; lia).
  simpl. by destruct (Z.odd q).
Qed.

(** X26.  The year of a term code is the code rounded to the nearest
    hundred: a code whose last two digits are above 50 belongs to the
    next year, and one that ends in 50 to the even one of the two
    years. *)
Theorem date_in_term_rounds_to_nearest_year (cal : BSUCalendar) (y s : Z)
    (field : string) :
  (50 < s < 100 →
   date_in_term cal (y * 100 + s) field
   = date_in_term cal ((y + 1) * 100) field)
  ∧ date_in_term cal (y * 100 + 50) field
    = date_in_term cal ((if Z.odd y then y + 1 else y) * 100) field.
Proof.
  assert (∀ q, round_hundreds (q * 100) = q * 100) as Hexact.
  { intros q. replace (q * 100) with (q * 100 + 0) at 1 by lia.
    apply round_hundreds_semester. lia. }
  unfold date_in_term, year_of_term. split.
  - intros Hs. rewrite Hexact. unfold round_hundreds.
    rewrite divmod_near_large by done. simpl.
    do 2 f_equal. lia.
  - rewrite Hexact. unfold round_hundreds. rewrite divmod_near_tie.
    destruct (Z.odd y); simpl; do 2 f_equal; lia.
Qed.

Lemma date_in_term_rounds_to_nearest_year_witness :
  ∃ cal,
    __init__ 2026 2012 (Some 2022) = Ok cal
    ∧ date_in_term cal (2019 * 100 + 60) "Fall Term Start"
      = date_in_term cal ((2019 + 1) * 100) "Fall Term Start".
Proof.
  destruct (init_spec 2026 2012 2022) as (cal & Hinit & _);
    [unfold MAXYEAR; lia..|].
  exists cal. split; [exact Hinit|].
  destruct (date_in_term_rounds_to_nearest_year cal 2019 60
              "Fall Term Start") as [H _].
  apply H. lia.
Defined.

(** ** [dates_by_tag]: no call returns *)

(** X27.  [dates_by_tag] returns for no tag, whatever the module's
    namespace holds: without a global [term] it raises [NameError], and
    with one it raises at the latest where it calls the dictionary
    [self.int_to_sem_code]. *)
Theorem dates_by_tag_always_raises (globals : gmap string pyval)
    (cal : BSUCalendar) (tag : string) :
  ∃ e, dates_by_tag globals cal tag = Raise e
       ∧ (globals !! "term" = None → e = NameError "term")
       ∧ (∀ t, globals !! "term" = Some (VInt t) → Z.abs t < 2 ^ 53 →
             e = TypeError).
Proof.
  unfold dates_by_tag, load_global.
  destruct (globals !! "term") as [v|] eqn:Hterm.
  - rewrite bind_Ok. destruct v as [|t| | |];
      try (exists TypeError; split; [reflexivity|];
           split; [discriminate|]; intros ? [=]).
    destruct (year_of_term t) as [yr|e] eqn:Hyr.
    + exists TypeError. split; [reflexivity|]. split; [discriminate|]. done.
    + exists e. split; [reflexivity|]. split; [discriminate|].
      intros t' [= <-] Ht. exfalso.
      unfold year_of_term, int_of_true_div_100 in Hyr. cbv zeta in Hyr.
      set (q := round_hundreds t / 100) in *.
      assert (100 * Z.abs q ≤ Z.abs t + 200) as Hq.
      { assert (q = t / 100 ∨ q = t / 100 + 1) as Hcases.
        { unfold q, round_hundreds, divmod_near.
          pose proof (Z.div_mod t 100 ltac:(lia)) as Hdm.
          match goal with
          | |- context [if ?c then (_, _) else _] => destruct c
          end; cbn [snd]; [right|left].
          - replace (t - (t mod 100 - 100)) with ((t / 100 + 1) * 100)
              by lia.
            apply Z.div_mul. lia.
          - replace (t - t mod 100) with (t / 100 * 100) by lia.
            apply Z.div_mul. lia. }
        assert (100 * Z.abs (t / 100) ≤ Z.abs t + 100)
          by (Z.div_mod_to_equations; lia).
        lia. }
      assert (Z.log2 (Z.abs q) + 1 ≤ 53) as Hlog.
      { destruct (Z.eq_dec (Z.abs q) 0) as [->|Hne]; [simpl; lia|].
        assert (Z.log2 (Z.abs q) < 53); [|lia].
        apply Z.log2_lt_pow2; [lia|].
        assert (2 ^ 53 = 9007199254740992) as Hp by reflexivity.
        rewrite Hp in *. lia. }
      destruct (Z.leb_spec (Z.log2 (Z.abs q) + 1) 53); [discriminate|lia].
  - exists (NameError "term"). split; [reflexivity|]. split; [done|].
    intros ? [=].
Qed.



Lemma dates_by_tag_always_raises_witness :
  ∃ cal e,
    __init__ 2026 2012 (Some 2022) = Ok cal
    ∧ dates_by_tag (<["term" := VInt 202010]> module_globals) cal "Holidays"
      = Raise e
    ∧ ((<["term" := VInt 202010]> module_globals) !! "term" = None →
       e = NameError "term")
    ∧ (∀ t, (<["term" := VInt 202010]> module_globals) !! "term"
            = Some (VInt t) → Z.abs t < 2 ^ 53 → e = TypeError).
Proof.
  destruct (init_spec 2026 2012 2022) as (cal & Hinit & _);
    [unfold MAXYEAR; lia..|].
  destruct (dates_by_tag_always_raises
              (<["term" := VInt 202010]> module_globals) cal "Holidays")
    as (e & He).
  exists cal, e. split; [exact Hinit | exact He].
Defined.
